(** * valuation_tool: signal detection and classification engine

    A shallow embedding of the decision logic of
    [services/significance.py], [services/leadership.py],
    [services/news_monitoring.py] and [services/change_detection.py],
    with the properties of the specification stated over it.

    Modelling conventions.
    - A Python [str] is a [string]; a character stands for a code point
      below 256.  [lower], whitespace and word characters follow
      Python on that range, where [lower] keeps the length of a string.
      Beyond it [str.lower] may lengthen a string (U+0130 becomes two
      code points); positions of matches are therefore stated within the
      lower-cased content, in which the code searches.
    - A Python [float] confidence is an exact rational ([Q]); every
      constant of the code is a two-digit decimal and the code only adds,
      subtracts, multiplies by a count and compares them.  Computed
      confidences are compared with [==].
    - An insertion-ordered [dict] is an association list. *)

From Stdlib Require Import Bool Arith Lia List ZArith QArith Qminmax Qround Lqa.
From Stdlib Require Import Ascii String DecimalString.
Import ListNotations.

Open Scope string_scope.
Open Scope list_scope.
Open Scope nat_scope.

(** ** Python string primitives *)

Module Py.

Definition code (c : ascii) : nat := nat_of_ascii c.

Definition between (lo hi n : nat) : bool := (lo <=? n) && (n <=? hi).

(** [str.isspace] on one character (also the class [\s] of [re]). *)
Definition is_space (c : ascii) : bool :=
  let n := code c in
  between 9 13 n || between 28 32 n || (n =? 133) || (n =? 160).

(** The class [\w] of [re] on a [str] pattern: alphanumerics and [_]. *)
Definition is_word (c : ascii) : bool :=
  let n := code c in
  between 48 57 n || between 65 90 n || between 97 122 n || (n =? 95)
  || (n =? 170) || (n =? 178) || (n =? 179) || (n =? 181) || (n =? 185)
  || (n =? 186) || between 188 190 n || between 192 214 n
  || between 216 246 n || between 248 255 n.

Definition lower_char (c : ascii) : ascii :=
  let n := code c in
  if between 65 90 n || between 192 214 n || between 216 222 n
  then ascii_of_nat (n + 32) else c.

(** [str.upper] on one character.  The images of the three characters 181,
    223 and 255 lie outside the range (or are two letters); they are kept
    as they are, none occurs in a constant the code compares with. *)
Definition upper_char (c : ascii) : ascii :=
  let n := code c in
  if between 97 122 n || between 224 246 n || between 248 254 n
  then ascii_of_nat (n - 32) else c.

Fixpoint map_chars (f : ascii -> ascii) (s : string) : string :=
  match s with
  | EmptyString => EmptyString
  | String c s' => String (f c) (map_chars f s')
  end.

Definition lower (s : string) : string := map_chars lower_char s.
Definition upper (s : string) : string := map_chars upper_char s.

(** [bool(s)] of a string. *)
Definition truthy (s : string) : bool :=
  match s with EmptyString => false | _ => true end.

(** [s[a:b]] for [0 <= a]. *)
Definition slice (s : string) (a b : nat) : string := substring a (b - a) s.

(** [s[a:]]. *)
Fixpoint drop (n : nat) (s : string) : string :=
  match n, s with
  | O, _ => s
  | S _, EmptyString => EmptyString
  | S n', String _ s' => drop n' s'
  end.

Definition startswith (s p : string) : bool := prefix p s.

Fixpoint find_at (sub s : string) (pos : nat) : option nat :=
  if prefix sub s then Some pos
  else match s with
       | EmptyString => None
       | String _ s' => find_at sub s' (S pos)
       end.

(** [s.find(sub, start)], with [None] for [-1]. *)
Definition find (s sub : string) (start : nat) : option nat :=
  if start <=? length s then find_at sub (drop start s) start else None.

(** [sub in s]. *)
Definition contains (sub s : string) : bool :=
  match find s sub 0 with Some _ => true | None => false end.

Fixpoint lstrip (s : string) : string :=
  match s with
  | String c s' => if is_space c then lstrip s' else s
  | EmptyString => EmptyString
  end.

Fixpoint rstrip (s : string) : string :=
  match s with
  | EmptyString => EmptyString
  | String c s' =>
      match rstrip s' with
      | EmptyString => if is_space c then EmptyString else String c EmptyString
      | r => String c r
      end
  end.

Definition strip (s : string) : string := rstrip (lstrip s).

(** [s.split()]: the maximal runs of non-space characters.  [cur] is the
    word being read, reversed. *)
Fixpoint split_acc (s : string) (cur : list ascii) : list string :=
  let flush (rest : list string) :=
    match cur with
    | [] => rest
    | _ => string_of_list_ascii (rev cur) :: rest
    end in
  match s with
  | EmptyString => flush []
  | String c s' =>
      if is_space c then flush (split_acc s' []) else split_acc s' (c :: cur)
  end.

Definition split (s : string) : list string := split_acc s [].

(** ["sep".join(l)]. *)
Fixpoint join (sep : string) (l : list string) : string :=
  match l with
  | [] => EmptyString
  | [x] => x
  | x :: rest => (x ++ sep ++ join sep rest)%string
  end.

Definition str_in (x : string) (l : list string) : bool :=
  existsb (String.eqb x) l.

(** [s.removeprefix(p)]. *)
Definition removeprefix (s p : string) : string :=
  if prefix p s then drop (length p) s else s.

(** The one-character string of a line feed. *)
Definition newline : string := String (ascii_of_nat 10) EmptyString.

(** [min] and [max] of two floats, as Python evaluates them. *)
Definition min (x y : Q) : Q := if Qle_bool x y then x else y.
Definition max (x y : Q) : Q := if Qle_bool y x then x else y.

End Py.

(** ** models.py *)

Inductive ChangeMagnitude := minor | moderate | major.

Inductive SignificanceClassification := significant | insignificant | uncertain.

Inductive SignificanceSentiment := positive | negative | neutral | mixed.

Inductive LeadershipChangeType :=
| ceo_departure | founder_departure | cto_departure | coo_departure
| executive_departure | new_ceo | new_leadership | no_change.

Record KeywordMatch := mkKeywordMatch {
  keyword : string;
  position : nat;
  context_before : string;
  context_after : string;
  category : string;
  is_negated : bool;
  is_false_positive : bool
}.

Record SignificanceResult := mkSignificanceResult {
  classification : SignificanceClassification;
  sentiment : SignificanceSentiment;
  confidence : Q;
  matched_keywords : list string;
  matched_categories : list string
}.

Definition ChangeMagnitude_eqb (a b : ChangeMagnitude) : bool :=
  match a, b with
  | minor, minor | moderate, moderate | major, major => true
  | _, _ => false
  end.

(** ** services/significance.py *)

Module Significance.

Definition copyright_sign : string := String (ascii_of_nat 169) EmptyString.

Definition POSITIVE_KEYWORDS : list (string * list string) :=
  [ ("funding_investment",
      [ "series a"; "series b"; "series c"; "series d"; "series e";
        "seed round"; "funding round"; "raised"; "funding";
        "venture capital"; "valuation"; "investment round";
        "pre-seed"; "angel round" ]);
    ("product_launch",
      [ "launched"; "launch"; "beta release"; "general availability";
        "new product"; "product release"; "now available"; "go live" ]);
    ("growth_success",
      [ "revenue growth"; "milestone"; "profitable"; "record revenue";
        "year over year growth"; "customer growth"; "user growth" ]);
    ("partnerships",
      [ "partnership"; "joint venture"; "strategic alliance";
        "collaboration"; "partner" ]);
    ("expansion",
      [ "new office"; "hiring"; "expansion"; "international expansion";
        "new market"; "headcount growth"; "opening new" ]);
    ("recognition",
      [ "innovation award"; "top 10"; "top 50"; "best places to work";
        "award"; "recognized" ]);
    ("ipo_exit",
      [ "filed s-1"; "nasdaq"; "nyse"; "ipo"; "public offering";
        "going public"; "spac" ]) ].

Definition NEGATIVE_KEYWORDS : list (string * list string) :=
  [ ("closure",
      [ "shut down"; "shutdown"; "ceased operations"; "winding down";
        "closing"; "closed"; "dissolved" ]);
    ("layoffs_downsizing",
      [ "layoffs"; "laid off"; "lays off"; "workforce reduction";
        "job cuts"; "downsizing"; "restructuring"; "rif" ]);
    ("financial_distress",
      [ "chapter 11"; "chapter 7"; "bankruptcy"; "insolvent";
        "cash crunch"; "default"; "debt crisis" ]);
    ("legal_issues",
      [ "lawsuit"; "investigation"; "settlement"; "sued";
        "regulatory action"; "fine"; "penalty" ]);
    ("security_breach",
      [ "data breach"; "hacked"; "ransomware"; "cyber attack";
        "security incident"; "compromised" ]);
    ("acquisition",
      [ "acquired by"; "merged with"; "sold to";
        "acquisition"; "takeover" ]);
    ("leadership_changes",
      [ "ceo resigned"; "ceo departed"; "founder left"; "cto left";
        "stepping down"; "leadership transition"; "new ceo";
        "retired"; "resigned" ]);
    ("product_failures",
      [ "product recall"; "discontinued"; "sunset";
        "end of life"; "deprecate" ]);
    ("market_exit",
      [ "exiting market"; "market withdrawal"; "divesting";
        "pulling out of" ]) ].

Definition INSIGNIFICANT_PATTERNS : list (string * list string) :=
  [ ("css_styling",
      [ "font-family"; "font-size"; "background-color"; "color:";
        "margin:"; "padding:"; "border:"; "text-align" ]);
    ("copyright_year",
      [ "copyright"; "all rights reserved"; copyright_sign ]);
    ("tracking_analytics",
      [ "google-analytics"; "gtag"; "tracking code"; "analytics";
        "pixel"; "facebook pixel" ]) ].

Definition FALSE_POSITIVE_PATTERNS : list string :=
  [ "talent acquisition"; "customer acquisition"; "data acquisition";
    "user acquisition"; "funding opportunities"; "funding sources";
    "self-funded" ].

Definition NEGATION_WORDS : list string :=
  [ "no"; "not"; "never"; "without"; "lacks" ].

(** Keyword is preceded by a negation word within 20 characters. *)
Definition _is_negated (content_lower : string) (keyword_pos : nat) : bool :=
  let prefix := Py.strip (Py.slice content_lower (keyword_pos - 20) keyword_pos) in
  let words := Py.split prefix in
  existsb (fun word => Py.str_in word NEGATION_WORDS) words.

Definition _is_false_positive (content_lower : string) (keyword_pos : nat)
    (keyword : string) : bool :=
  let start := keyword_pos - 30 in
  let end_ := Nat.min (length content_lower) (keyword_pos + length keyword + 30) in
  let context := Py.slice content_lower start end_ in
  existsb (fun fp_pattern => Py.contains fp_pattern context) FALSE_POSITIVE_PATTERNS.

(** The [while True] loop of [_find_keywords] for one keyword, from index
    [idx].  Each turn moves [idx] past a match, so at most
    [length content + 1] turns are taken; [fuel] bounds them. *)
Fixpoint find_occurrences (fuel : nat) (content content_lower : string)
    (category keyword : string) (idx : nat) : list KeywordMatch :=
  match fuel with
  | O => []
  | S fuel' =>
      match Py.find content_lower keyword idx with
      | None => []
      | Some pos =>
          let start := pos - 50 in
          let end_ := Nat.min (length content) (pos + length keyword + 50) in
          mkKeywordMatch keyword pos
            (Py.slice content start pos)
            (Py.slice content (pos + length keyword) end_)
            category
            (_is_negated content_lower pos)
            (_is_false_positive content_lower pos keyword)
          :: find_occurrences fuel' content content_lower category keyword
               (pos + length keyword)
      end
  end.

Definition _find_keywords (content : string)
    (keyword_dict : list (string * list string)) : list KeywordMatch :=
  let content_lower := Py.lower content in
  flat_map (fun '(category, keywords) =>
    flat_map (fun keyword =>
      find_occurrences (S (length content)) content content_lower
        category keyword 0) keywords) keyword_dict.

Definition _find_insignificant_patterns (content : string) : list KeywordMatch :=
  let content_lower := Py.lower content in
  flat_map (fun '(category, patterns) =>
    flat_map (fun pattern =>
      if Py.contains pattern content_lower
      then [mkKeywordMatch pattern 0 "" "" category false false]
      else []) patterns) INSIGNIFICANT_PATTERNS.

Definition _classify_sentiment (positive_count negative_count : nat)
    : SignificanceSentiment :=
  if (2 <=? positive_count) && (2 <=? negative_count) then mixed
  else if 2 <=? positive_count then positive
  else if 2 <=? negative_count then negative
  else neutral.

Definition effective (m : KeywordMatch) : bool :=
  negb (is_negated m) && negb (is_false_positive m).

(** [list({...})]: the distinct categories; Python leaves their order
    unspecified. *)
Definition distinct (l : list string) : list string := nodup string_dec l.

Definition count_of (n : nat) : Q := inject_Z (Z.of_nat n).

(** The subtraction of the penalties and the clamp of rules 2 to 5. *)
Definition penalized (base : Q) (negated_count fp_count : nat) : Q :=
  let confidence := (base - (0.20 * count_of negated_count
                             + 0.30 * count_of fp_count))%Q in
  Py.max 0.0 (Py.min 1.0 confidence).

Definition analyze_significance (content : string) (magnitude : ChangeMagnitude)
    : SignificanceResult :=
  let positive_matches := _find_keywords content POSITIVE_KEYWORDS in
  let negative_matches := _find_keywords content NEGATIVE_KEYWORDS in
  let insignificant_matches := _find_insignificant_patterns content in
  let effective_positive := filter effective positive_matches in
  let effective_negative := filter effective negative_matches in
  let pos_count := List.length effective_positive in
  let neg_count := List.length effective_negative in
  let total_keyword_count := pos_count + neg_count in
  let all_keywords := map keyword (effective_positive ++ effective_negative)%list in
  let all_categories :=
    distinct (map category (effective_positive ++ effective_negative)%list) in
  let negated_count :=
    List.length (filter is_negated (positive_matches ++ negative_matches)%list) in
  let fp_count :=
    List.length (filter is_false_positive (positive_matches ++ negative_matches)%list) in
  let sentiment := _classify_sentiment pos_count neg_count in
  if (total_keyword_count =? 0)
     && negb (match insignificant_matches with [] => true | _ => false end)
     && ChangeMagnitude_eqb magnitude minor
  then mkSignificanceResult insignificant neutral 0.85
         (map keyword insignificant_matches)
         (map category insignificant_matches)
  else if 2 <=? neg_count then
    let confidence :=
      Py.min (0.80 + 0.05 * inject_Z (Z.of_nat neg_count - 2))%Q 0.95 in
    mkSignificanceResult significant sentiment
      (penalized confidence negated_count fp_count) all_keywords all_categories
  else if 2 <=? pos_count then
    let confidence :=
      Py.min (0.80 + 0.03 * inject_Z (Z.of_nat pos_count - 2))%Q 0.90 in
    mkSignificanceResult significant sentiment
      (penalized confidence negated_count fp_count) all_keywords all_categories
  else if (1 <=? total_keyword_count) && ChangeMagnitude_eqb magnitude major then
    mkSignificanceResult significant sentiment
      (penalized 0.70 negated_count fp_count) all_keywords all_categories
  else if 1 <=? total_keyword_count then
    mkSignificanceResult uncertain sentiment
      (penalized 0.50 negated_count fp_count) all_keywords all_categories
  else mkSignificanceResult insignificant neutral 0.75 [] [].

(** *** Vocabulary of the properties *)

Definition raw_positive (content : string) : list KeywordMatch :=
  _find_keywords content POSITIVE_KEYWORDS.

Definition raw_negative (content : string) : list KeywordMatch :=
  _find_keywords content NEGATIVE_KEYWORDS.

(** Matches that are neither negated nor false positive. *)
Definition effective_count (l : list KeywordMatch) : nat :=
  List.length (filter effective l).

(** Negated raw matches, over both taxonomies. *)
Definition negated_total (content : string) : nat :=
  List.length (filter is_negated (raw_positive content ++ raw_negative content)%list).

(** False-positive raw matches, over both taxonomies. *)
Definition fp_total (content : string) : nat :=
  List.length
    (filter is_false_positive (raw_positive content ++ raw_negative content)%list).

Definition all_keywords_nonempty (d : list (string * list string)) : bool :=
  forallb (fun '(_, kws) => forallb Py.truthy kws) d.

(** [content] with the [len] characters from [start] deleted. *)
Definition remove_span (content : string) (start len : nat) : string :=
  (Py.slice content 0 start ++ Py.drop (start + len) content)%string.

Definition flags (m : KeywordMatch) : bool * bool :=
  (is_negated m, is_false_positive m).

(** What the classifier reads of a match: all but the two context windows. *)
Definition core (m : KeywordMatch) : string * nat * string * bool * bool :=
  (keyword m, position m, category m, is_negated m, is_false_positive m).

(** The keywords of a taxonomy are at least [n] characters long. *)
Definition keywords_at_least (n : nat) (d : list (string * list string)) : bool :=
  forallb (fun '(_, kws) => forallb (fun kw => n <=? length kw) kws) d.

(** Some pattern of the insignificant taxonomy occurs in the content. *)
Definition has_insignificant_pattern (content : string) : bool :=
  existsb (fun '(_, patterns) =>
    existsb (fun pattern => Py.contains pattern (Py.lower content)) patterns)
    INSIGNIFICANT_PATTERNS.

(** The clamp of a confidence less the two penalties, in the words of the
    docstring and the comments. *)
Definition clamped (base : Q) (negated fp : nat) : Q :=
  Qmax 0 (Qmin 1 (base - 0.20 * count_of negated - 0.30 * count_of fp)).

End Significance.

(** ** Regular expressions

    The fragment of Python's [re] that the code uses, with its
    backtracking order: alternatives left to right, greedy repetition.
    A position is the character before it ([prev]), the text after it and
    the number [n] of characters consumed since the start of the match. *)

Module Re.

Inductive cset :=
| space                       (* \s *)
| word                        (* \w *)
| one_of (chars : string).    (* [...] *)

Inductive re :=
| Lit (w : string)            (* literal text *)
| Set_ (c : cset)             (* one character of a class *)
| Plus (c : cset)             (* class+ *)
| Bnd                         (* \b *)
| Seq (r1 r2 : re)
| Alt (r1 r2 : re)            (* r1|r2 *)
| Opt (r : re).               (* (?:r)? *)

(** Equality of a pattern character and a text character; [ic] is
    [re.IGNORECASE]. *)
Definition char_eq (ic : bool) (a c : ascii) : bool :=
  if ic then Ascii.eqb (Py.lower_char a) (Py.lower_char c) else Ascii.eqb a c.

Fixpoint in_chars (ic : bool) (chars : string) (c : ascii) : bool :=
  match chars with
  | EmptyString => false
  | String a rest => char_eq ic a c || in_chars ic rest c
  end.

Definition in_cset (ic : bool) (cs : cset) (c : ascii) : bool :=
  match cs with
  | space => Py.is_space c
  | word => Py.is_word c
  | one_of chars => in_chars ic chars c
  end.

Definition is_word_opt (c : option ascii) : bool :=
  match c with Some c => Py.is_word c | None => false end.

Definition head (s : string) : option ascii :=
  match s with String c _ => Some c | EmptyString => None end.

Definition at_boundary (prev : option ascii) (s : string) : bool :=
  xorb (is_word_opt prev) (is_word_opt (head s)).

Section Matcher.
Context {A : Type} (ic : bool).

Definition cont := option ascii -> string -> nat -> option A.

Fixpoint lit (w : string) (prev : option ascii) (s : string) (n : nat)
    (k : cont) : option A :=
  match w with
  | EmptyString => k prev s n
  | String a w' =>
      match s with
      | String c s' => if char_eq ic a c then lit w' (Some c) s' (S n) k else None
      | EmptyString => None
      end
  end.

(** Greedy: the longest run first, then shorter ones. *)
Fixpoint plus (cs : cset) (prev : option ascii) (s : string) (n : nat)
    (k : cont) : option A :=
  match s with
  | String c s' =>
      if in_cset ic cs c then
        match plus cs (Some c) s' (S n) k with
        | Some r => Some r
        | None => k (Some c) s' (S n)
        end
      else None
  | EmptyString => None
  end.

Fixpoint run (r : re) (prev : option ascii) (s : string) (n : nat)
    (k : cont) : option A :=
  match r with
  | Lit w => lit w prev s n k
  | Set_ cs =>
      match s with
      | String c s' => if in_cset ic cs c then k (Some c) s' (S n) else None
      | EmptyString => None
      end
  | Plus cs => plus cs prev s n k
  | Bnd => if at_boundary prev s then k prev s n else None
  | Seq r1 r2 => run r1 prev s n (fun prev' s' n' => run r2 prev' s' n' k)
  | Alt r1 r2 =>
      match run r1 prev s n k with
      | Some x => Some x
      | None => run r2 prev s n k
      end
  | Opt r1 =>
      match run r1 prev s n k with
      | Some x => Some x
      | None => k prev s n
      end
  end.

End Matcher.

(** [pattern.match] at one position: the length of the match. *)
Definition match_here (ic : bool) (r : re) (prev : option ascii) (s : string)
    : option nat :=
  run ic r prev s 0 (fun _ _ n => Some n).

Fixpoint search_from (ic : bool) (r : re) (prev : option ascii) (s : string)
    (pos : nat) : option (nat * nat) :=
  match match_here ic r prev s with
  | Some len => Some (pos, len)
  | None =>
      match s with
      | EmptyString => None
      | String c s' => search_from ic r (Some c) s' (S pos)
      end
  end.

(** [pattern.search(s)]: start and length of the leftmost match. *)
Definition search (ic : bool) (r : re) (s : string) : option (nat * nat) :=
  search_from ic r None s 0.

(** [match.group(0)]. *)
Definition group0 (s : string) (m : nat * nat) : string :=
  Py.slice s (fst m) (fst m + snd m).

Fixpoint seq (l : list re) : re :=
  match l with
  | [] => Lit ""
  | [r] => r
  | r :: rest => Seq r (seq rest)
  end.

Fixpoint alt (l : list re) : re :=
  match l with
  | [] => Set_ (one_of "")
  | [r] => r
  | r :: rest => Alt r (alt rest)
  end.

(** The least number of characters a match of [r] takes. *)
Fixpoint min_len (r : re) : nat :=
  match r with
  | Lit w => length w
  | Set_ _ => 1
  | Plus _ => 1
  | Bnd => 0
  | Seq r1 r2 => min_len r1 + min_len r2
  | Alt r1 r2 => Nat.min (min_len r1) (min_len r2)
  | Opt _ => 0
  end.

End Re.

(** ** Dictionaries in insertion order *)

Module Dict.
Section Dict.
Context {V : Type}.

Definition t := list (string * V).

Fixpoint get (d : t) (k : string) : option V :=
  match d with
  | [] => None
  | (k', v) :: rest => if String.eqb k k' then Some v else get rest k
  end.

Definition mem (k : string) (d : t) : bool :=
  match get d k with Some _ => true | None => false end.

(** [d[k] = v]: a known key keeps its place and takes the new value; a new
    key goes last. *)
Fixpoint set (d : t) (k : string) (v : V) : t :=
  match d with
  | [] => [(k, v)]
  | (k', v') :: rest =>
      if String.eqb k k' then (k', v) :: rest else (k', v') :: set rest k v
  end.

Definition keys (d : t) : list string := map fst d.

End Dict.
Arguments t : clear implicits.
End Dict.

(** ** services/leadership.py *)

Module CompanyLeadership.
(** Of the model's fields the change detection reads these three. *)
Record t := mk {
  person_name : string;
  title : string;
  linkedin_profile_url : option string
}.
End CompanyLeadership.

Module LeadershipChange.
Record t := mk {
  change_type : LeadershipChangeType;
  person_name : string;
  title : string;
  severity : string;
  confidence : Q;
  significance_classification : option SignificanceClassification;
  significance_sentiment : option SignificanceSentiment;
  significance_confidence : option Q
}.
End LeadershipChange.

Module Leadership.
Import Re.

Definition _TITLE_CANONICALIZATION : Dict.t string :=
  [ ("chief executive officer", "CEO");
    ("chief technology officer", "CTO");
    ("chief operating officer", "COO");
    ("chief financial officer", "CFO");
    ("chief marketing officer", "CMO");
    ("chief people officer", "Chief People Officer");
    ("chief product officer", "Chief Product Officer");
    ("chief revenue officer", "CRO");
    ("chief strategy officer", "CSO");
    ("chief data officer", "Chief Data Officer");
    ("chief information officer", "Chief Information Officer");
    ("cofounder", "Co-Founder");
    ("co founder", "Co-Founder");
    ("co-founder", "Co-Founder") ].

(** All compiled with [re.IGNORECASE]; the order matters. *)
Definition _LEADERSHIP_PATTERNS : list re :=
  [ seq [Bnd; alt [Lit "CEO"; Lit "CTO"; Lit "COO"; Lit "CFO"; Lit "CMO";
                   Lit "CRO"; Lit "CSO"]; Bnd];
    seq [Bnd; Lit "Chief"; Plus space; Plus word; Plus space; Lit "Officer"; Bnd];
    seq [Bnd; alt [seq [Lit "Co"; Opt (Lit "-"); Set_ (one_of "Ff"); Lit "ounder"];
                   Lit "Cofounder"]; Bnd];
    seq [Bnd; Lit "Founder"; Bnd];
    seq [Bnd; Lit "President"; Bnd];
    seq [Bnd; Lit "Managing"; Plus space; Lit "Director"; Bnd];
    seq [Bnd; Lit "General"; Plus space; Lit "Manager"; Bnd];
    seq [Bnd; Lit "VP"; Plus space; Opt (seq [Lit "of"; Plus space]); Plus word; Bnd];
    seq [Bnd; Lit "Vice"; Plus space; Lit "President";
         Opt (seq [Plus space; Lit "of"; Plus space; Plus word]); Bnd] ].

Fixpoint first_match (patterns : list re) (title : string) : option string :=
  match patterns with
  | [] => None
  | pattern :: rest =>
      match search true pattern title with
      | Some m => Some (group0 title m)
      | None => first_match rest title
      end
  end.

Definition is_leadership_title (title : string) : bool :=
  existsb (fun pattern =>
    match search true pattern title with Some _ => true | None => false end)
    _LEADERSHIP_PATTERNS.

Definition extract_leadership_title (title : string) : option string :=
  first_match _LEADERSHIP_PATTERNS title.

Definition normalize_title (title : string) : string :=
  let title_lower := Py.strip (Py.lower title) in
  match Dict.get _TITLE_CANONICALIZATION title_lower with
  | Some canonical => canonical
  | None =>
      match extract_leadership_title title with
      | Some extracted =>
          if Py.truthy extracted then
            let extracted_lower := Py.lower extracted in
            match Dict.get _TITLE_CANONICALIZATION extracted_lower with
            | Some canonical => canonical
            | None => extracted
            end
          else title
      | None => title
      end
  end.

Definition _departure_type (title : string) : LeadershipChangeType :=
  let norm := Py.upper (normalize_title title) in
  if String.eqb norm "CEO" then ceo_departure
  else if Py.str_in norm ["FOUNDER"; "CO-FOUNDER"] then founder_departure
  else if String.eqb norm "CTO" then cto_departure
  else if String.eqb norm "COO" then coo_departure
  else executive_departure.

(** A scraped candidate record, a [dict[str, str]]. *)
Definition candidate := Dict.t string.

(** [r.get(key, "")]. *)
Definition get_or_empty (r : candidate) (key : string) : string :=
  match Dict.get r key with Some v => v | None => "" end.

(** One turn of the comprehension
    [{l.linkedin_profile_url: l for l in previous if l.linkedin_profile_url}]. *)
Definition prev_step (d : Dict.t CompanyLeadership.t) (l : CompanyLeadership.t)
    : Dict.t CompanyLeadership.t :=
  match CompanyLeadership.linkedin_profile_url l with
  | Some url => if Py.truthy url then Dict.set d url l else d
  | None => d
  end.

Definition prev_urls (previous : list CompanyLeadership.t)
    : Dict.t CompanyLeadership.t :=
  fold_left prev_step previous [].

(** One turn of
    [{r.get("profile_url", ""): r for r in current if r.get("profile_url")}]. *)
Definition curr_step (d : Dict.t candidate) (r : candidate) : Dict.t candidate :=
  match Dict.get r "profile_url" with
  | Some url =>
      if Py.truthy url then Dict.set d (get_or_empty r "profile_url") r else d
  | None => d
  end.

Definition curr_urls (current : list candidate) : Dict.t candidate :=
  fold_left curr_step current [].

Definition is_critical_departure (change_type : LeadershipChangeType) : bool :=
  match change_type with
  | ceo_departure | founder_departure | cto_departure | coo_departure => true
  | _ => false
  end.

(** The record appended by the departure loop for [leader]. *)
Definition departure_change (leader : CompanyLeadership.t) : LeadershipChange.t :=
  let change_type := _departure_type (CompanyLeadership.title leader) in
  let severity :=
    if is_critical_departure change_type then "critical" else "notable" in
  let critical := String.eqb severity "critical" in
  LeadershipChange.mk change_type
    (CompanyLeadership.person_name leader)
    (CompanyLeadership.title leader)
    severity
    (if critical then 0.95 else 0.80)%Q
    (if critical then Some significant else None)
    (if critical then Some negative else None)
    (if critical then Some 0.95%Q else None).

(** The record appended by the arrival loop for [person]. *)
Definition arrival_change (person : candidate) : LeadershipChange.t :=
  let title_norm := normalize_title (get_or_empty person "title") in
  let '(change_type, severity) :=
    if String.eqb title_norm "CEO" then (new_ceo, "notable")
    else (new_leadership, "notable") in
  LeadershipChange.mk change_type
    (get_or_empty person "name")
    (get_or_empty person "title")
    severity 0.80%Q None None None.

Definition no_change_record : LeadershipChange.t :=
  LeadershipChange.mk no_change "" "" "insignificant" 0.75%Q None None None.

(** [changes] after the departure loop. *)
Definition departure_loop (prev : Dict.t CompanyLeadership.t)
    (curr : Dict.t candidate) (changes : list LeadershipChange.t)
    : list LeadershipChange.t :=
  fold_left (fun changes '(url, leader) =>
    if negb (Dict.mem url curr) then changes ++ [departure_change leader]
    else changes) prev changes.

(** [changes] after the arrival loop. *)
Definition arrival_loop (prev : Dict.t CompanyLeadership.t)
    (curr : Dict.t candidate) (changes : list LeadershipChange.t)
    : list LeadershipChange.t :=
  fold_left (fun changes '(url, person) =>
    if negb (Dict.mem url prev) then changes ++ [arrival_change person]
    else changes) curr changes.

Definition detect_leadership_changes (previous : list CompanyLeadership.t)
    (current : list candidate) : list LeadershipChange.t :=
  let changes := [] in
  let prev_urls := prev_urls previous in
  let curr_urls := curr_urls current in
  let changes := departure_loop prev_urls curr_urls changes in
  let changes := arrival_loop prev_urls curr_urls changes in
  match changes with
  | [] => [no_change_record]
  | _ => changes
  end.

(** Title ranking (lower = more senior). *)
Definition _TITLE_RANK : Dict.t nat :=
  [ ("CEO", 1); ("Founder", 2); ("Co-Founder", 3); ("President", 4);
    ("CTO", 5); ("COO", 5); ("CFO", 5); ("CMO", 6); ("CRO", 6); ("CSO", 6);
    ("Managing Director", 7); ("General Manager", 8) ].

Definition rank_title (title : string) : nat :=
  let normalized := normalize_title title in
  match Dict.get _TITLE_RANK normalized with
  | Some rank => rank
  | None =>
      if Py.contains "VP" (Py.upper normalized)
         || Py.contains "Vice President" normalized then 9
      else if Py.contains "Chief" normalized then 6
      else 99
  end.

Definition is_departure_type (change_type : LeadershipChangeType) : bool :=
  match change_type with
  | ceo_departure | founder_departure | cto_departure | coo_departure
  | executive_departure => true
  | _ => false
  end.

(** The loop of [extract_leadership_for_company] that applies the changes:
    the addresses handed to [db.mark_leadership_not_current], in order. *)
Definition marked_not_current (previous_leaders : list CompanyLeadership.t)
    (changes : list LeadershipChange.t) : list string :=
  flat_map (fun change =>
    if is_departure_type (LeadershipChange.change_type change) then
      flat_map (fun prev =>
        if String.eqb (CompanyLeadership.person_name prev)
             (LeadershipChange.person_name change) then
          match CompanyLeadership.linkedin_profile_url prev with
          | Some url => if Py.truthy url then [url] else []
          | None => []
          end
        else []) previous_leaders
    else []) changes.

(** The changes [check_leadership_changes] reports for one company. *)
Definition critical_changes (changes : list LeadershipChange.t)
    : list LeadershipChange.t :=
  filter (fun change => String.eqb (LeadershipChange.severity change) "critical")
    changes.

(** *** Vocabulary of the properties *)

(** [u] identifies a record of the previous roster. *)
Definition previous_id (previous : list CompanyLeadership.t) (u : string) : Prop :=
  exists l, In l previous
            /\ CompanyLeadership.linkedin_profile_url l = Some u
            /\ Py.truthy u = true.

(** [u] identifies a record of the current roster. *)
Definition current_id (current : list candidate) (u : string) : Prop :=
  exists r, In r current
            /\ Dict.get r "profile_url" = Some u
            /\ Py.truthy u = true.

(** Entries of the previous map whose identifier the current map lacks. *)
Definition departed (previous : list CompanyLeadership.t)
    (current : list candidate) : Dict.t CompanyLeadership.t :=
  filter (fun e => negb (Dict.mem (fst e) (curr_urls current))) (prev_urls previous).

(** Entries of the current map whose identifier the previous map lacks. *)
Definition arrived (previous : list CompanyLeadership.t)
    (current : list candidate) : Dict.t candidate :=
  filter (fun e => negb (Dict.mem (fst e) (prev_urls previous))) (curr_urls current).

Definition departures (previous : list CompanyLeadership.t)
    (current : list candidate) : list LeadershipChange.t :=
  map (fun e => departure_change (snd e)) (departed previous current).

Definition arrivals (previous : list CompanyLeadership.t)
    (current : list candidate) : list LeadershipChange.t :=
  map (fun e => arrival_change (snd e)) (arrived previous current).

Definition is_departure (c : LeadershipChange.t) : bool :=
  match LeadershipChange.change_type c with
  | ceo_departure | founder_departure | cto_departure | coo_departure
  | executive_departure => true
  | _ => false
  end.

Definition is_arrival (c : LeadershipChange.t) : bool :=
  match LeadershipChange.change_type c with
  | new_ceo | new_leadership => true
  | _ => false
  end.


End Leadership.

(** ** services/news_monitoring.py *)

Module Config.
(** Of the settings, the two behind [llm_enabled]. *)
Record t := mk {
  llm_validation_enabled : bool;
  anthropic_api_key : option string
}.

Definition llm_enabled (c : t) : bool :=
  llm_validation_enabled c
  && match anthropic_api_key c with Some key => Py.truthy key | None => false end.
End Config.

Module NewsMonitoring.
Import Re.

Definition VERIFICATION_WEIGHTS : Dict.t Q :=
  [ ("logo", 0.30%Q); ("domain", 0.30%Q); ("context", 0.15%Q); ("llm", 0.25%Q) ].

(** [VERIFICATION_WEIGHTS[key]] for one of the four keys. *)
Definition weight (key : string) : Q :=
  match Dict.get VERIFICATION_WEIGHTS key with Some w => w | None => 0%Q end.

Definition VERIFICATION_THRESHOLD : Q := 0.40.

Definition business_context_words : list string :=
  [ "announced"; "raised"; "launched"; "acquired"; "partnered";
    "reported"; "expanded"; "hired"; "funding"; "revenue";
    "growth"; "product"; "series"; "round" ].

(** An article as the search API returns it, a [dict]. *)
Definition article := Dict.t string.

Definition get_or_empty (a : article) (key : string) : string :=
  match Dict.get a key with Some v => v | None => "" end.

Section Verify.

(** [urlparse(url).netloc] of the standard library. *)
Variable urlparse_netloc : string -> string.

(** The answer of the language model, [_llm_verify_article]: it catches
    its own failures and then answers [False]. *)
Variable _llm_verify_article : article -> string -> Config.t -> bool.

Definition _verify_article (art : article) (company_name : string)
    (homepage_url logo_hash : option string) (config : Config.t)
    : Q * list string :=
  let confidence := 0.0%Q in
  let evidence : list string := [] in
  let snippet := get_or_empty art "snippet" in
  let article_url := get_or_empty art "url" in
  (* Signal 1: domain match *)
  let '(confidence, evidence) :=
    match homepage_url with
    | Some homepage_url =>
        if Py.truthy homepage_url then
          let company_domain :=
            Py.removeprefix (urlparse_netloc homepage_url) "www." in
          if Py.truthy company_domain then
            let pattern := seq [Bnd; Lit company_domain; Bnd] in
            let text_to_check := (snippet ++ " " ++ article_url)%string in
            match search false pattern text_to_check with
            | Some _ => ((confidence + weight "domain")%Q,
                         evidence ++ ["domain_match"])
            | None => (confidence, evidence)
            end
          else (confidence, evidence)
        else (confidence, evidence)
    | None => (confidence, evidence)
    end in
  (* Signal 2: name in business context *)
  let '(confidence, evidence) :=
    if Py.contains (Py.lower company_name) (Py.lower snippet) then
      if existsb (fun word => Py.contains word (Py.lower snippet))
           business_context_words
      then ((confidence + weight "context")%Q, evidence ++ ["name_context"])
      else (confidence, evidence)
    else (confidence, evidence) in
  (* Signal 3: logo match, a placeholder: [if logo_hash: pass] *)
  let '(confidence, evidence) :=
    match logo_hash with
    | Some _ => (confidence, evidence)
    | None => (confidence, evidence)
    end in
  (* Signal 4: LLM verification *)
  let '(confidence, evidence) :=
    if Config.llm_enabled config then
      if _llm_verify_article art company_name config
      then ((confidence + weight "llm")%Q, evidence ++ ["llm_verification"])
      else (confidence, evidence)
    else (confidence, evidence) in
  (confidence, evidence).

(** *** Vocabulary of the properties *)

(** The homepage's domain, [www.] stripped, occurs as a whole word in the
    snippet or the URL of the article. *)
Definition domain_match (art : article) (homepage_url : option string) : bool :=
  match homepage_url with
  | None => false
  | Some url =>
      let company_domain := Py.removeprefix (urlparse_netloc url) "www." in
      Py.truthy url && Py.truthy company_domain
      && match search false (seq [Bnd; Lit company_domain; Bnd])
                 (get_or_empty art "snippet" ++ " " ++ get_or_empty art "url")%string
         with Some _ => true | None => false end
  end.

(** The company name occurs in the snippet, and so does a business word. *)
Definition name_context_match (art : article) (company_name : string) : bool :=
  let snippet := Py.lower (get_or_empty art "snippet") in
  Py.contains (Py.lower company_name) snippet
  && existsb (fun word => Py.contains word snippet) business_context_words.

(** The language model is switched on and confirms the article. *)
Definition llm_match (art : article) (company_name : string) (config : Config.t)
    : bool :=
  Config.llm_enabled config && _llm_verify_article art company_name config.

End Verify.

(** The weight behind an evidence tag. *)
Definition tag_weight (tag : string) : Q :=
  if String.eqb tag "domain_match" then weight "domain"
  else if String.eqb tag "name_context" then weight "context"
  else if String.eqb tag "llm_verification" then weight "llm"
  else 0%Q.

Definition total_weight (evidence : list string) : Q :=
  fold_right (fun tag acc => (tag_weight tag + acc)%Q) 0%Q evidence.

(** [netloc] of a plain [scheme://host/path?query#fragment] address, as
    the documentation of [urllib.parse] describes it; it instantiates
    [urlparse_netloc] in the examples. *)
Fixpoint until_delimiter (s : string) : string :=
  match s with
  | EmptyString => EmptyString
  | String c s' =>
      if Py.str_in (String c EmptyString) ["/"; "?"; "#"] then EmptyString
      else String c (until_delimiter s')
  end.

Definition netloc_of (url : string) : string :=
  match Py.find url "://" 0 with
  | Some i => until_delimiter (Py.drop (i + 3) url)
  | None => EmptyString
  end.

(** No language model at hand. *)
Definition no_llm (_ : article) (_ : string) (_ : Config.t) : bool := false.

(** Settings with the language model switched off. *)
Definition llm_off : Config.t := Config.mk false None.

End NewsMonitoring.

(** ** difflib

    [SequenceMatcher(None, a, b)] and [unified_diff] of Python's standard
    library, over lists of lines, as [_extract_diff_lines] calls them
    (no junk function, automatic junk heuristic on, three lines of
    context). *)

Module Difflib.

Inductive tag := replace | delete | insert | equal.

Definition tag_eqb (x y : tag) : bool :=
  match x, y with
  | replace, replace | delete, delete | insert, insert | equal, equal => true
  | _, _ => false
  end.

Definition opcode : Type := tag * nat * nat * nat * nat.
Definition block : Type := nat * nat * nat.

(** [l[i:j]] of a list. *)
Definition lines_slice (l : list string) (i j : nat) : list string :=
  firstn (j - i) (skipn i l).

Definition uint_string (n : nat) : string :=
  NilEmpty.string_of_uint (Nat.to_uint n).

Section SequenceMatcher.
Variables a b : list string.

Definition la := List.length a.
Definition lb := List.length b.

Fixpoint indices_from (elt : string) (l : list string) (i : nat) : list nat :=
  match l with
  | [] => []
  | x :: rest =>
      if String.eqb x elt then i :: indices_from elt rest (S i)
      else indices_from elt rest (S i)
  end.

(** [__chain_b]: where each line occurs in [b]; with 200 lines or more, a
    line that fills more than 1% of [b] (plus one) is dropped. *)
Definition popular (elt : string) : bool :=
  (200 <=? lb) && (lb / 100 + 1 <? List.length (indices_from elt b 0)).

Definition b2j (elt : string) : list nat :=
  if popular elt then [] else indices_from elt b 0.

Fixpoint assoc (j : nat) (d : list (nat * nat)) : nat :=
  match d with
  | [] => 0
  | (j', k) :: rest => if j =? j' then k else assoc j rest
  end.

(** [j2len.get(j - 1, 0)]. *)
Definition j2lenget (j2len : list (nat * nat)) (j : nat) : nat :=
  match j with
  | O => 0
  | S j' => assoc j' j2len
  end.

(** The inner [for j in b2j.get(a[i], nothing)] of [find_longest_match]. *)
Fixpoint scan_row (i blo bhi : nat) (j2len : list (nat * nat)) (js : list nat)
    (newj2len : list (nat * nat)) (best : block) : list (nat * nat) * block :=
  match js with
  | [] => (newj2len, best)
  | j :: rest =>
      if j <? blo then scan_row i blo bhi j2len rest newj2len best
      else if bhi <=? j then (newj2len, best)
      else
        let k := j2lenget j2len j + 1 in
        let newj2len := (j, k) :: newj2len in
        let '(besti, bestj, bestsize) := best in
        let best := if bestsize <? k then (i + 1 - k, j + 1 - k, k) else best in
        scan_row i blo bhi j2len rest newj2len best
  end.

Definition same_line (i j : nat) : bool :=
  String.eqb (nth i a "") (nth j b "").

(** The first [while] after the scan; it runs at most [besti - alo] times. *)
Fixpoint extend_back (n alo blo : nat) (best : block) : block :=
  let '(besti, bestj, bestsize) := best in
  match n with
  | O => best
  | S n' =>
      if (alo <? besti) && (blo <? bestj) && same_line (besti - 1) (bestj - 1)
      then extend_back n' alo blo (besti - 1, bestj - 1, bestsize + 1)
      else best
  end.

(** The second [while]; it runs at most [ahi - (besti + bestsize)] times. *)
Fixpoint extend_forward (n ahi bhi : nat) (best : block) : block :=
  let '(besti, bestj, bestsize) := best in
  match n with
  | O => best
  | S n' =>
      if (besti + bestsize <? ahi) && (bestj + bestsize <? bhi)
         && same_line (besti + bestsize) (bestj + bestsize)
      then extend_forward n' ahi bhi (besti, bestj, bestsize + 1)
      else best
  end.

Definition find_longest_match (alo ahi blo bhi : nat) : block :=
  let '(_, best) :=
    fold_left (fun '(j2len, best) i =>
      scan_row i blo bhi j2len (b2j (nth i a "")) [] best)
      (seq alo (ahi - alo)) ([], (alo, blo, 0)) in
  let best := extend_back (fst (fst best) - alo) alo blo best in
  let '(besti, bestj, bestsize) := best in
  extend_forward (ahi - (besti + bestsize)) ahi bhi best.

(** The [while queue] loop of [get_matching_blocks].  The queue is kept
    with its last element first; [fuel] bounds the turns, [None] says the
    bound was too small. *)
Fixpoint blocks_loop (fuel : nat) (queue : list (nat * nat * nat * nat))
    (matching_blocks : list block) : option (list block) :=
  match queue with
  | [] => Some matching_blocks
  | (alo, ahi, blo, bhi) :: queue =>
      match fuel with
      | O => None
      | S fuel' =>
          let '(i, j, k) := find_longest_match alo ahi blo bhi in
          if 0 <? k then
            let matching_blocks := matching_blocks ++ [(i, j, k)] in
            let queue :=
              if (alo <? i) && (blo <? j) then (alo, i, blo, j) :: queue
              else queue in
            let queue :=
              if (i + k <? ahi) && (j + k <? bhi) then (i + k, ahi, j + k, bhi) :: queue
              else queue in
            blocks_loop fuel' queue matching_blocks
          else blocks_loop fuel' queue matching_blocks
      end
  end.

(** Order of tuples. *)
Definition block_leb (x y : block) : bool :=
  let '(i1, j1, k1) := x in
  let '(i2, j2, k2) := y in
  (i1 <? i2) || ((i1 =? i2) && ((j1 <? j2) || ((j1 =? j2) && (k1 <=? k2)))).

Fixpoint insert_sorted (x : block) (l : list block) : list block :=
  match l with
  | [] => [x]
  | y :: rest => if block_leb x y then x :: l else y :: insert_sorted x rest
  end.

Definition sort (l : list block) : list block :=
  fold_right insert_sorted [] l.

(** Adjacent blocks are merged, and the sentinel ends the list. *)
Definition collapse (matching_blocks : list block) : list block :=
  let '(i1, j1, k1, non_adjacent) :=
    fold_left (fun '(i1, j1, k1, non_adjacent) '(i2, j2, k2) =>
      if (i1 + k1 =? i2) && (j1 + k1 =? j2)
      then (i1, j1, k1 + k2, non_adjacent)
      else (i2, j2, k2,
            if 0 <? k1 then non_adjacent ++ [(i1, j1, k1)] else non_adjacent))
      matching_blocks (0, 0, 0, []) in
  let non_adjacent :=
    if 0 <? k1 then non_adjacent ++ [(i1, j1, k1)] else non_adjacent in
  non_adjacent ++ [(la, lb, 0)].

Definition get_matching_blocks : option (list block) :=
  match blocks_loop (S (2 * la)) [(0, la, 0, lb)] [] with
  | Some matching_blocks => Some (collapse (sort matching_blocks))
  | None => None
  end.

Definition opcodes_of (blocks : list block) : list opcode :=
  snd (fold_left (fun '(i, j, answer) '(ai, bj, size) =>
    let answer :=
      if (i <? ai) && (j <? bj) then answer ++ [(replace, i, ai, j, bj)]
      else if i <? ai then answer ++ [(delete, i, ai, j, bj)]
      else if j <? bj then answer ++ [(insert, i, ai, j, bj)]
      else answer in
    let i := ai + size in
    let j := bj + size in
    let answer :=
      if 0 <? size then answer ++ [(equal, ai, i, bj, j)] else answer in
    (i, j, answer)) blocks (0, 0, [])).

Definition get_opcodes : option (list opcode) :=
  option_map opcodes_of get_matching_blocks.

Definition fix_first (n : nat) (codes : list opcode) : list opcode :=
  match codes with
  | (equal, i1, i2, j1, j2) :: rest =>
      (equal, Nat.max i1 (i2 - n), i2, Nat.max j1 (j2 - n), j2) :: rest
  | _ => codes
  end.

Fixpoint fix_last (n : nat) (codes : list opcode) : list opcode :=
  match codes with
  | [] => []
  | [(equal, i1, i2, j1, j2)] =>
      [(equal, i1, Nat.min i2 (i1 + n), j1, Nat.min j2 (j1 + n))]
  | c :: rest => c :: fix_last n rest
  end.

(** The loop of [get_grouped_opcodes]: the groups yielded so far and the
    group being filled. *)
Definition group_codes (n : nat) (codes : list opcode) : list (list opcode) :=
  let '(groups, group) :=
    fold_left (fun '(groups, group) '(tg, i1, i2, j1, j2) =>
      if tag_eqb tg equal && (n + n <? i2 - i1) then
        let group :=
          group ++ [(tg, i1, Nat.min i2 (i1 + n), j1, Nat.min j2 (j1 + n))] in
        let groups := groups ++ [group] in
        let i1 := Nat.max i1 (i2 - n) in
        let j1 := Nat.max j1 (j2 - n) in
        (groups, [(tg, i1, i2, j1, j2)])
      else (groups, group ++ [(tg, i1, i2, j1, j2)]))
      codes ([], []) in
  match group with
  | [] => groups
  | [(equal, _, _, _, _)] => groups
  | _ => groups ++ [group]
  end.

Definition get_grouped_opcodes (n : nat) : option (list (list opcode)) :=
  match get_opcodes with
  | Some codes =>
      let codes :=
        match codes with [] => [(equal, 0, 1, 0, 1)] | _ => codes end in
      Some (group_codes n (fix_last n (fix_first n codes)))
  | None => None
  end.

Definition _format_range_unified (start stop : nat) : string :=
  let beginning := start + 1 in
  let length := stop - start in
  if length =? 1 then uint_string beginning
  else
    let beginning := if length =? 0 then beginning - 1 else beginning in
    (uint_string beginning ++ "," ++ uint_string length)%string.

Definition prefixed (p : string) (lines : list string) : list string :=
  map (fun line => (p ++ line)%string) lines.

Definition group_lines (lineterm : string) (group : list opcode) : list string :=
  match group with
  | [] => []
  | first :: _ =>
      let last := List.last group first in
      let '(_, f1, _, f3, _) := first in
      let '(_, _, l2, _, l4) := last in
      let file1_range := _format_range_unified f1 l2 in
      let file2_range := _format_range_unified f3 l4 in
      ("@@ -" ++ file1_range ++ " +" ++ file2_range ++ " @@" ++ lineterm)%string
      :: flat_map (fun '(tg, i1, i2, j1, j2) =>
           match tg with
           | equal => prefixed " " (lines_slice a i1 i2)
           | replace =>
               prefixed "-" (lines_slice a i1 i2) ++ prefixed "+" (lines_slice b j1 j2)
           | delete => prefixed "-" (lines_slice a i1 i2)
           | insert => prefixed "+" (lines_slice b j1 j2)
           end) group
  end.

(** [unified_diff(a, b, lineterm=lineterm)]: no file names, no dates. *)
Definition unified_diff (lineterm : string) : option (list string) :=
  match get_grouped_opcodes 3 with
  | Some [] => Some []
  | Some groups =>
      Some ((("--- " ++ lineterm)%string :: ("+++ " ++ lineterm)%string :: nil)
            ++ flat_map (group_lines lineterm) groups)
  | None => None
  end.

(** [ratio()]: twice the matched elements over the elements of both. *)
Definition ratio : option Q :=
  match get_matching_blocks with
  | Some blocks =>
      let matches := fold_left (fun acc '(_, _, size) => acc + size) blocks 0 in
      let length := la + lb in
      Some (if length =? 0 then 1.0
            else 2.0 * inject_Z (Z.of_nat matches) / inject_Z (Z.of_nat length))%Q
  | None => None
  end.

End SequenceMatcher.
End Difflib.

(** ** services/change_detection.py *)

Module ChangeRecord.
(** Of the model's fields, those the change detection computes. *)
Record t := mk {
  has_changed : bool;
  change_magnitude : ChangeMagnitude;
  checksum_old : option string;
  checksum_new : option string;
  diff_summary : option string;
  matched_keywords : list string;
  matched_categories : list string;
  significance_classification : option SignificanceClassification;
  significance_sentiment : option SignificanceSentiment;
  significance_confidence : option Q
}.
End ChangeRecord.

Module IndicatorSignal.
Inductive t := positive | negative | neutral.
Definition eqb (x y : t) : bool :=
  match x, y with
  | positive, positive | negative, negative | neutral, neutral => true
  | _, _ => false
  end.
End IndicatorSignal.

Module CompanyStatusType.
Inductive t := operational | likely_closed | uncertain.
End CompanyStatusType.

Module StatusIndicator.
Record t := mk {
  type : string;
  value : option string;
  signal : IndicatorSignal.t
}.
End StatusIndicator.

Module ChangeDetection.
Import Re.

(** 50_000 *)
Definition MAX_COMPARE_LENGTH : nat := 50 * 1000.

Definition _calculate_magnitude (similarity : Q) : ChangeMagnitude :=
  if Qle_bool 0.90 similarity then minor
  else if Qle_bool 0.50 similarity then moderate
  else major.

Definition is_line_break (c : ascii) : bool :=
  let n := Py.code c in
  Py.between 10 13 n || Py.between 28 30 n || (n =? 133).

(** [s.splitlines(keepends=True)]; [cur] is the line being read,
    reversed. *)
Fixpoint splitlines_acc (s : string) (cur : list ascii) : list string :=
  let line (l : list ascii) := string_of_list_ascii (rev l) in
  match s with
  | EmptyString => match cur with [] => [] | _ => [line cur] end
  | String c s' =>
      if Py.code c =? 13 then
        match s' with
        | String c' s'' =>
            if Py.code c' =? 10 then line (c' :: c :: cur) :: splitlines_acc s'' []
            else line (c :: cur) :: splitlines_acc s' []
        | EmptyString => [line (c :: cur)]
        end
      else if is_line_break c then line (c :: cur) :: splitlines_acc s' []
      else splitlines_acc s' (c :: cur)
  end.

Definition splitlines (s : string) : list string := splitlines_acc s [].

(** The lines kept from the diff: a [+] in front, but not [+++]. *)
Definition added_lines (diff : list string) : list string :=
  flat_map (fun line =>
    if Py.startswith line "+" && negb (Py.startswith line "+++")
    then [Py.strip (Py.drop 1 line)] else []) diff.

(** [None] only if the bound of the matcher's loop were too small. *)
Definition _extract_diff_lines (old_content new_content : string) : option string :=
  let old_lines := splitlines old_content in
  let new_lines := splitlines new_content in
  match Difflib.unified_diff old_lines new_lines "" with
  | Some diff => Some (Py.join Py.newline (added_lines diff))
  | None => None
  end.

(** [x or ""]. *)
Definition or_empty (x : option string) : string :=
  match x with Some v => v | None => EmptyString end.

Definition option_string_eqb (x y : option string) : bool :=
  match x, y with
  | Some a, Some b => String.eqb a b
  | None, None => true
  | _, _ => false
  end.

(** A string as the sequence of its characters. *)
Fixpoint chars (s : string) : list string :=
  match s with
  | EmptyString => []
  | String c s' => String c EmptyString :: chars s'
  end.

(** The body of the loop of [detect_changes] for a company whose two
    snapshots exist and whose old snapshot has content: the record handed
    to [db.store_change_record].  [None] only if the bound of the matcher's
    loop were too small. *)
Definition change_record (old_markdown new_markdown : option string)
    (old_checksum new_checksum : option string) : option ChangeRecord.t :=
  let old_content := Py.slice (or_empty old_markdown) 0 MAX_COMPARE_LENGTH in
  let new_content := Py.slice (or_empty new_markdown) 0 MAX_COMPARE_LENGTH in
  let has_changed := negb (option_string_eqb old_checksum new_checksum) in
  let compared := has_changed && Py.truthy old_content && Py.truthy new_content in
  let similarity :=
    if compared then Difflib.ratio (chars old_content) (chars new_content)
    else Some (if negb has_changed then 1.0 else 0.0)%Q in
  let diff_text :=
    if compared then _extract_diff_lines old_content new_content
    else Some EmptyString in
  match similarity, diff_text with
  | Some similarity, Some diff_text =>
      let magnitude := _calculate_magnitude similarity in
      let content_for_analysis :=
        if Py.truthy diff_text then diff_text else new_content in
      let sig_result :=
        Significance.analyze_significance content_for_analysis magnitude in
      Some (ChangeRecord.mk has_changed magnitude old_checksum new_checksum
              (if Py.truthy diff_text then Some (Py.slice diff_text 0 5000) else None)
              (matched_keywords sig_result) (matched_categories sig_result)
              (Some (classification sig_result)) (Some (sentiment sig_result))
              (Some (confidence sig_result)))
  | _, _ => None
  end.

(** All compiled with [re.IGNORECASE]. *)
Definition _ACQUISITION_PATTERNS : list re :=
  [ seq [Bnd; Lit "acquired"; Plus space; Lit "by"; Bnd];
    seq [Bnd; Lit "merged"; Plus space; Lit "with"; Bnd];
    seq [Bnd; Lit "sold"; Plus space; Lit "to"; Bnd];
    seq [Bnd; Lit "now"; Plus space; Opt (seq [Lit "a"; Plus space]);
         Lit "part"; Plus space; Lit "of"; Bnd];
    seq [Bnd; Lit "is"; Plus space; Lit "now"; Plus space; Lit "a"; Plus space;
         Lit "subsidiary"; Plus space; Lit "of"; Bnd];
    seq [Bnd; Lit "is"; Plus space; Lit "now"; Plus space; Lit "a"; Plus space;
         Lit "division"; Plus space; Lit "of"; Bnd] ].

Definition suppressing_words : list string :=
  [ "we "; "our "; "talent "; "customer "; "data " ].

(** The [for pattern in _ACQUISITION_PATTERNS] loop. *)
Fixpoint acquisition_loop (patterns : list re) (content content_lower : string)
    : bool :=
  match patterns with
  | [] => false
  | pattern :: rest =>
      match search true pattern content with
      | Some m =>
          let start := fst m - 30 in
          let prefix := Py.slice content_lower start (fst m) in
          if existsb (fun word => Py.contains word prefix) suppressing_words
          then acquisition_loop rest content content_lower
          else true
      | None => acquisition_loop rest content content_lower
      end
  end.

Definition detect_acquisition (content : string) : bool :=
  let content_lower := Py.lower content in
  acquisition_loop _ACQUISITION_PATTERNS content content_lower.

(** [pattern.search(content)] finds a match. *)
Definition matches (content : string) (pattern : re) : Prop :=
  search true pattern content <> None.

(** [round(x, 2)]: to the nearest hundredth, a tie to the even one. *)
Definition round2 (x : Q) : Q :=
  let y := (x * 100)%Q in
  let f := Qfloor y in
  let d := (y - inject_Z f)%Q in
  let n :=
    if Qle_bool d (1 # 2) then
      if Qle_bool (1 # 2) d then (if Z.even f then f else (f + 1)%Z) else f
    else (f + 1)%Z in
  (inject_Z n / 100)%Q.

Definition count_signal (sg : IndicatorSignal.t)
    (indicators : list StatusIndicator.t) : nat :=
  List.length
    (filter (fun i => IndicatorSignal.eqb (StatusIndicator.signal i) sg) indicators).

(** The end of [analyze_status]: status and confidence of the
    [CompanyStatus] record, from the indicators collected. *)
Definition status_and_confidence (indicators : list StatusIndicator.t)
    : CompanyStatusType.t * Q :=
  let positive_count := count_signal IndicatorSignal.positive indicators in
  let negative_count := count_signal IndicatorSignal.negative indicators in
  let neutral_count := count_signal IndicatorSignal.neutral indicators in
  let total := positive_count + negative_count + neutral_count in
  let confidence :=
    if total =? 0 then 0.2%Q
    else
      let dominant := Nat.max positive_count negative_count in
      Py.min (0.4 + 0.2 * inject_Z (Z.of_nat dominant))%Q 1.0%Q in
  let status :=
    if Qle_bool 0.5 confidence && (negative_count <? positive_count)
    then CompanyStatusType.operational
    else if Qle_bool 0.5 confidence && (positive_count <? negative_count)
    then CompanyStatusType.likely_closed
    else if Qle_bool 0.5 confidence && (positive_count =? negative_count)
    then CompanyStatusType.uncertain
    else CompanyStatusType.uncertain in
  (status, round2 confidence).

End ChangeDetection.

(** * Properties *)

(** ** Properties of the significance classifier *)

Module SignificanceProps.
Import Significance.

(** *** The search loop terminates within its bound *)

Lemma prefix_length (sub s : string) :
  prefix sub s = true -> length sub <= length s.
Proof.
  revert s. induction sub as [|a sub IH]; intros [|b s] H; simpl in *;
    try lia; try discriminate.
  destruct (ascii_dec a b); [|discriminate]. apply IH in H. lia.
Qed.

Lemma find_at_bounds (sub s : string) (pos p : nat) :
  Py.find_at sub s pos = Some p -> pos <= p /\ p + length sub <= pos + length s.
Proof.
  revert pos. induction s as [|c s IH]; intros pos H.
  - cbn [Py.find_at] in H. destruct (prefix sub "") eqn:E; [|discriminate].
    injection H as <-. apply prefix_length in E. lia.
  - cbn [Py.find_at] in H. destruct (prefix sub (String c s)) eqn:E.
    + injection H as <-. apply prefix_length in E. lia.
    + apply IH in H. simpl. lia.
Qed.

Lemma drop_length (n : nat) (s : string) :
  length (Py.drop n s) = length s - n.
Proof.
  revert s. induction n as [|n IH]; intros [|c s]; simpl; auto.
Qed.

Lemma find_bounds (s sub : string) (start p : nat) :
  Py.find s sub start = Some p -> start <= p /\ p + length sub <= length s.
Proof.
  unfold Py.find. destruct (start <=? length s) eqn:E; [|discriminate].
  apply Nat.leb_le in E. intros H%find_at_bounds.
  rewrite drop_length in H. lia.
Qed.

(** Any fuel above the distance to the end of the content gives the same
    list of occurrences: the bound of [_find_keywords] never cuts the
    loop short. *)
Lemma find_occurrences_fuel (content content_lower category keyword : string) :
  keyword <> "" ->
  forall fuel fuel' idx,
    length content_lower - idx < fuel ->
    length content_lower - idx < fuel' ->
    find_occurrences fuel content content_lower category keyword idx
    = find_occurrences fuel' content content_lower category keyword idx.
Proof.
  intros Hk. assert (0 < length keyword) as Hlen
    by (destruct keyword; [congruence | simpl; lia]).
  induction fuel as [|fuel IH]; intros [|fuel'] idx H H'; try lia.
  cbn [find_occurrences].
  destruct (Py.find content_lower keyword idx) as [pos|] eqn:E; [|reflexivity].
  apply find_bounds in E. f_equal. apply IH; lia.
Qed.

Lemma taxonomies_nonempty :
  all_keywords_nonempty POSITIVE_KEYWORDS = true
  /\ all_keywords_nonempty NEGATIVE_KEYWORDS = true.
Proof. split; reflexivity. Qed.

Lemma py_min_spec (x y : Q) : (Py.min x y == Qmin x y)%Q.
Proof.
  unfold Py.min. destruct (Qle_bool x y) eqn:E.
  - apply Qle_bool_iff in E. symmetry. now apply Q.min_l.
  - assert (~ (x <= y)%Q) as H by (rewrite <- Qle_bool_iff; congruence).
    symmetry. apply Q.min_r. apply Qnot_le_lt in H. now apply Qlt_le_weak.
Qed.

Lemma py_max_spec (x y : Q) : (Py.max x y == Qmax x y)%Q.
Proof.
  unfold Py.max. destruct (Qle_bool y x) eqn:E.
  - apply Qle_bool_iff in E. symmetry. now apply Q.max_l.
  - assert (~ (y <= x)%Q) as H by (rewrite <- Qle_bool_iff; congruence).
    symmetry. apply Q.max_r. apply Qnot_le_lt in H. now apply Qlt_le_weak.
Qed.

Lemma penalized_formula (base : Q) (k f : nat) :
  (penalized base k f
   == Qmax 0 (Qmin 1 (base - 0.20 * count_of k - 0.30 * count_of f)))%Q.
Proof.
  unfold penalized. rewrite py_max_spec, py_min_spec.
  apply Q.max_compat; [reflexivity|].
  apply Q.min_compat; [reflexivity|ring].
Qed.

Lemma penalized_bounds (base : Q) (k f : nat) :
  (0 <= penalized base k f <= 1)%Q.
Proof.
  rewrite penalized_formula. split.
  - apply Q.le_max_l.
  - apply Q.max_lub; [lra | apply Q.le_min_l].
Qed.

Lemma penalized_le_base (base : Q) (k f : nat) :
  (0 <= base)%Q -> (penalized base k f <= base)%Q.
Proof.
  intros Hb. rewrite penalized_formula.
  assert (0 <= count_of k)%Q by (unfold count_of; rewrite <- (Zle_Qle 0); lia).
  assert (0 <= count_of f)%Q by (unfold count_of; rewrite <- (Zle_Qle 0); lia).
  apply Q.max_lub; [exact Hb|].
  eapply Qle_trans; [apply Q.le_min_r|]. lra.
Qed.



(** C1: with at least two effective negative matches the classifier
    answers [significant], and its confidence is
    min(0.80 + 0.05 * (n - 2), 0.95) less 0.20 per negated and 0.30 per
    false-positive raw match of both taxonomies, clamped to [0, 1]. *)
Theorem rule2_negative_confidence (content : string) (magnitude : ChangeMagnitude) :
  let n := effective_count (raw_negative content) in
  2 <= n ->
  classification (analyze_significance content magnitude) = significant
  /\ (confidence (analyze_significance content magnitude)
      == Qmax 0 (Qmin 1 (Qmin (0.80 + 0.05 * (count_of n - 2)) 0.95
                         - 0.20 * count_of (negated_total content)
                         - 0.30 * count_of (fp_total content))))%Q.
Proof.
  intros n Hn. subst n.
  unfold negated_total, fp_total, effective_count, raw_negative, raw_positive in *.
  unfold analyze_significance.
  set (P := _find_keywords content POSITIVE_KEYWORDS) in *.
  set (N := _find_keywords content NEGATIVE_KEYWORDS) in *.
  set (I := _find_insignificant_patterns content).
  clearbody P N I. cbv zeta.
  set (n := List.length (filter effective N)) in *.
  set (p := List.length (filter effective P)).
  assert ((p + n =? 0) = false) as -> by (apply Nat.eqb_neq; lia).
  assert ((2 <=? n) = true) as -> by (apply Nat.leb_le; lia).
  cbn [andb classification confidence]. split; [reflexivity|].
  rewrite penalized_formula.
  assert (Py.min (0.80 + 0.05 * inject_Z (Z.of_nat n - 2)) 0.95
          == Qmin (0.80 + 0.05 * (count_of n - 2)) 0.95)%Q as ->.
  { rewrite py_min_spec. unfold count_of, Z.sub.
    rewrite inject_Z_plus. reflexivity. }
  reflexivity.
Qed.

Lemma rule2_negative_confidence_witness :
  let content := "Layoffs announced and company shut down operations" in
  2 <= effective_count (raw_negative content)
  /\ classification (analyze_significance content moderate) = significant
  /\ (confidence (analyze_significance content moderate) == 0.80)%Q.
Proof.
  intros content.
  assert (2 <= effective_count (raw_negative content)) as H by (vm_compute; lia).
  split; [exact H|].
  destruct (rule2_negative_confidence content moderate H) as [Hc Hq].
  split; [exact Hc|]. rewrite Hq. vm_compute. reflexivity.
Defined.

(** C9: the confidence of every result lies in [0, 1]. *)
Theorem confidence_in_unit_interval (content : string) (magnitude : ChangeMagnitude) :
  (0 <= confidence (analyze_significance content magnitude) <= 1)%Q.
Proof.
  unfold analyze_significance.
  set (P := _find_keywords content POSITIVE_KEYWORDS).
  set (N := _find_keywords content NEGATIVE_KEYWORDS).
  set (I := _find_insignificant_patterns content).
  clearbody P N I. cbv zeta.
  repeat match goal with
  | |- context [if ?b then _ else _] => destruct b
  end; cbn [confidence]; try apply penalized_bounds; split; lra.
Qed.

(** *** Negation monotonicity *)

Lemma effective_flags (m : KeywordMatch) :
  effective m = negb (fst (flags m)) && negb (snd (flags m)).
Proof. reflexivity. Qed.

Lemma count_by_flags (g : bool * bool -> bool) (l l' : list KeywordMatch) :
  map flags l = map flags l' ->
  List.length (filter (fun m => g (flags m)) l)
  = List.length (filter (fun m => g (flags m)) l').
Proof.
  revert l'. induction l as [|m l IH]; intros [|m' l'] H; cbn [map] in H;
    try discriminate; [reflexivity|].
  assert (flags m = flags m') as Hm by congruence.
  assert (map flags l = map flags l') as Hl by congruence.
  cbn [filter]. rewrite Hm.
  destruct (g (flags m')); cbn [List.length]; auto.
Qed.

Lemma length_filter_app {A} (f : A -> bool) (l1 l2 : list A) :
  List.length (filter f (l1 ++ l2)%list)
  = List.length (filter f l1) + List.length (filter f l2).
Proof. now rewrite filter_app, length_app. Qed.


(** Without an effective match left, the claim of C2 fails throughout:
    the negated content gets the fixed 0.85 or 0.75 of rules 1 and 6, the
    content without the negation at most 0.70. *)
Lemma negation_without_effective_match (c c' : string)
    (magnitude : ChangeMagnitude) (m m' : KeywordMatch) :
  raw_negative c = [m] -> is_negated m = true ->
  raw_negative c' = [m'] -> is_negated m' = false ->
  is_false_positive m' = false ->
  map flags (raw_positive c') = map flags (raw_positive c) ->
  effective_count (raw_positive c) = 0 ->
  (confidence (analyze_significance c' magnitude)
   < confidence (analyze_significance c magnitude))%Q.
Proof.
  unfold raw_negative, raw_positive, effective_count.
  intros HN Hm HN' Hm' Hfp HP Hp.
  unfold analyze_significance.
  rewrite HN, HN'.
  set (P := _find_keywords c POSITIVE_KEYWORDS) in *.
  set (P' := _find_keywords c' POSITIVE_KEYWORDS) in *.
  set (I := _find_insignificant_patterns c).
  set (I' := _find_insignificant_patterns c').
  clearbody P P' I I'. cbv zeta.
  rewrite !length_filter_app.
  assert (List.length (filter effective P') = List.length (filter effective P)) as ->
    by exact (count_by_flags (fun fl => negb (fst fl) && negb (snd fl)) P' P HP).
  rewrite Hp. cbn [filter]. unfold effective. rewrite Hm, Hm', Hfp.
  cbn [negb andb List.length Nat.add Nat.eqb Nat.leb].
  pose proof (penalized_le_base 0.70) as H70.
  pose proof (penalized_le_base 0.50) as H50.
  destruct (ChangeMagnitude_eqb magnitude major);
    destruct (negb match I with [] => true | _ => false end
              && ChangeMagnitude_eqb magnitude minor);
    cbn [confidence];
    match goal with
    | |- (penalized 0.70 ?k ?f < _)%Q => specialize (H70 k f)
    | |- (penalized 0.50 ?k ?f < _)%Q => specialize (H50 k f)
    end; lra.
Qed.


(** The premise on the false-positive flag is needed: the removal shifts
    the occurrence, whose window may then reach a false-positive pattern,
    and the penalty goes from 0.20 to 0.30. *)
Lemma negation_may_create_false_positive :
  let c := "hiring..............................self-funded xxxxxxxxxxxxxx not layoffs" in
  let c' := remove_span c 63 3 in
  c' = "hiring..............................self-funded xxxxxxxxxxxxxx  layoffs"
  /\ map flags (raw_negative c) = [(true, false)]
  /\ map flags (raw_negative c') = [(false, true)]
  /\ map flags (raw_positive c') = map flags (raw_positive c)
  /\ effective_count (raw_positive c) = 1
  /\ (confidence (analyze_significance c moderate) == 0.3)%Q
  /\ (confidence (analyze_significance c' moderate) == 0.2)%Q.
Proof.
  intros c c'.
  do 6 (split; [vm_compute; reflexivity|]). vm_compute. reflexivity.
Qed.


End SignificanceProps.

(** ** Properties of the leadership change detector *)

Module DictProps.
Section DictProps.
Context {V : Type}.
Implicit Types (d : Dict.t V) (k : string) (v : V).

Lemma get_set_same d k v : Dict.get (Dict.set d k v) k = Some v.
Proof.
  induction d as [|[k' v'] d IH]; cbn.
  - now rewrite String.eqb_refl.
  - destruct (String.eqb k k') eqn:E; cbn; rewrite E; auto.
Qed.

Lemma get_set_other d k k' v :
  k <> k' -> Dict.get (Dict.set d k v) k' = Dict.get d k'.
Proof.
  intros Hne. induction d as [|[k0 v0] d IH]; cbn.
  - destruct (String.eqb k' k) eqn:E; [apply String.eqb_eq in E; congruence | easy].
  - destruct (String.eqb k k0) eqn:E; cbn.
    + apply String.eqb_eq in E. subst k0.
      destruct (String.eqb k' k) eqn:E'; [apply String.eqb_eq in E'; congruence | easy].
    + destruct (String.eqb k' k0); auto.
Qed.


Lemma mem_keys d k : Dict.mem k d = true <-> In k (Dict.keys d).
Proof.
  unfold Dict.mem, Dict.keys. induction d as [|[k' v'] d IH]; cbn [Dict.get map fst In];
    [easy|].
  destruct (String.eqb k k') eqn:E.
  - apply String.eqb_eq in E. intuition.
  - apply String.eqb_neq in E. rewrite IH. intuition congruence.
Qed.




End DictProps.
End DictProps.

Module LeadershipProps.
Import Leadership DictProps.



(** Every identified record of the roster has its identifier in the map. *)
Lemma prev_fold_mem previous d u :
  Dict.mem u d = true
  \/ (exists l, In l previous
                /\ CompanyLeadership.linkedin_profile_url l = Some u
                /\ Py.truthy u = true) ->
  Dict.mem u (fold_left prev_step previous d) = true.
Proof.
  revert d. induction previous as [|a rest IH]; intros d H; cbn.
  - destruct H as [H | (l & [] & _)]. exact H.
  - apply IH. destruct H as [H | (l & [<- | Hin] & Hu & Ht)].
    + left. unfold prev_step.
      destruct (CompanyLeadership.linkedin_profile_url a) as [w|]; [|exact H].
      destruct (Py.truthy w); [|exact H].
      unfold Dict.mem. destruct (string_dec w u) as [->|Hne].
      * now rewrite get_set_same.
      * now rewrite get_set_other.
    + left. unfold prev_step. rewrite Hu, Ht.
      unfold Dict.mem. now rewrite get_set_same.
    + right. eauto.
Qed.

(** The record the map holds for an identifier is a record of the roster
    that carries this identifier. *)
Lemma prev_fold_get previous d u leader :
  Dict.get (fold_left prev_step previous d) u = Some leader ->
  Dict.get d u = Some leader
  \/ (In leader previous
      /\ CompanyLeadership.linkedin_profile_url leader = Some u).
Proof.
  revert d. induction previous as [|a rest IH]; intros d H; cbn in *; [now left|].
  apply IH in H. destruct H as [H | [Hin Hu]]; [|now right; auto].
  unfold prev_step in H.
  destruct (CompanyLeadership.linkedin_profile_url a) as [w|] eqn:Ew; [|now left].
  destruct (Py.truthy w); [|now left].
  destruct (string_dec w u) as [->|Hne].
  - rewrite get_set_same in H. injection H as <-. right. auto.
  - rewrite get_set_other in H by exact Hne. now left.
Qed.


Lemma departure_loop_spec prev curr changes :
  departure_loop prev curr changes
  = (changes ++ map (fun e => departure_change (snd e))
       (filter (fun e => negb (Dict.mem (fst e) curr)) prev))%list.
Proof.
  unfold departure_loop. revert changes.
  induction prev as [|[url leader] prev IH]; intros changes; cbn.
  - now rewrite app_nil_r.
  - rewrite IH. destruct (negb (Dict.mem url curr)); cbn; [|reflexivity].
    now rewrite <- app_assoc.
Qed.

Lemma arrival_loop_spec prev curr changes :
  arrival_loop prev curr changes
  = (changes ++ map (fun e => arrival_change (snd e))
       (filter (fun e => negb (Dict.mem (fst e) prev)) curr))%list.
Proof.
  unfold arrival_loop. revert changes.
  induction curr as [|[url person] curr IH]; intros changes; cbn.
  - now rewrite app_nil_r.
  - rewrite IH. destruct (negb (Dict.mem url prev)); cbn; [|reflexivity].
    now rewrite <- app_assoc.
Qed.

(** The output is the departures followed by the arrivals, or the single
    [no_change] record when both are empty. *)
Lemma detect_spec previous current :
  detect_leadership_changes previous current
  = match (departures previous current ++ arrivals previous current)%list with
    | [] => [no_change_record]
    | changes => changes
    end.
Proof.
  unfold detect_leadership_changes. cbv zeta.
  rewrite arrival_loop_spec, departure_loop_spec. cbn [app].
  unfold departures, arrivals, departed, arrived.
  now destruct (_ ++ _)%list.
Qed.

Lemma departure_is_departure leader : is_departure (departure_change leader) = true.
Proof.
  unfold is_departure, departure_change, _departure_type. cbn.
  repeat match goal with |- context [if ?b then _ else _] => destruct b end;
    reflexivity.
Qed.

Lemma arrival_is_arrival person : is_arrival (arrival_change person) = true.
Proof.
  unfold is_arrival, arrival_change.
  destruct (String.eqb _ "CEO"); reflexivity.
Qed.

(** Records without an identifier leave the maps as they are. *)
Lemma prev_urls_unidentified previous :
  (forall l, In l previous -> CompanyLeadership.linkedin_profile_url l = None) ->
  prev_urls previous = [].
Proof.
  unfold prev_urls. generalize (@nil (string * CompanyLeadership.t)).
  induction previous as [|a rest IH]; intros d H; cbn; [reflexivity|].
  unfold prev_step at 2. rewrite (H a) by now left.
  apply IH. intros l Hl. apply H. now right.
Qed.

Lemma curr_urls_unidentified current :
  (forall r, In r current -> Dict.get r "profile_url" = None) ->
  curr_urls current = [].
Proof.
  unfold curr_urls. generalize (@nil (string * candidate)).
  induction current as [|a rest IH]; intros d H; cbn; [reflexivity|].
  unfold curr_step at 2. rewrite (H a) by now left.
  apply IH. intros r Hr. apply H. now right.
Qed.

Lemma event_kind previous current c :
  In c (departures previous current ++ arrivals previous current)%list ->
  (is_departure c || is_arrival c) = true.
Proof.
  unfold departures, arrivals. intros [H|H]%in_app_or;
    apply in_map_iff in H as (e & <- & _).
  - now rewrite departure_is_departure.
  - rewrite arrival_is_arrival. apply orb_true_r.
Qed.

Lemma event_not_no_change c :
  (is_departure c || is_arrival c) = true ->
  LeadershipChange.change_type c <> no_change.
Proof.
  unfold is_departure, is_arrival.
  destruct (LeadershipChange.change_type c); cbn; congruence.
Qed.

Lemma loops_from_empty previous current :
  departure_loop (prev_urls previous) (curr_urls current) [] = departures previous current
  /\ arrival_loop (prev_urls previous) (curr_urls current) [] = arrivals previous current.
Proof. now rewrite departure_loop_spec, arrival_loop_spec. Qed.

(** C6: the output is the single [no_change] record (severity
    [insignificant], confidence 0.75) exactly when the departure loop and
    the arrival loop emit nothing; a [no_change] record never shares the
    output with a departure or an arrival; the function is total, two
    empty rosters give [no_change], and so do rosters whose records all
    lack an identifier. *)
Theorem no_change_iff_no_events (previous : list CompanyLeadership.t)
    (current : list candidate) :
  let out := detect_leadership_changes previous current in
  (out = [no_change_record]
   <-> departure_loop (prev_urls previous) (curr_urls current) [] = []
       /\ arrival_loop (prev_urls previous) (curr_urls current) [] = [])
  /\ (forall c, In c out -> LeadershipChange.change_type c = no_change ->
       out = [no_change_record])
  /\ (forall c c', In c out -> (is_departure c || is_arrival c) = true ->
       In c' out -> LeadershipChange.change_type c' <> no_change)
  /\ LeadershipChange.change_type no_change_record = no_change
  /\ LeadershipChange.severity no_change_record = "insignificant"
  /\ LeadershipChange.confidence no_change_record = 0.75%Q
  /\ detect_leadership_changes [] [] = [no_change_record]
  /\ ((forall l, In l previous ->
        CompanyLeadership.linkedin_profile_url l = None) ->
      (forall r, In r current -> Dict.get r "profile_url" = None) ->
      out = [no_change_record]).
Proof.
  intros out. subst out.
  assert ((forall l, In l previous ->
             CompanyLeadership.linkedin_profile_url l = None) ->
          (forall r, In r current -> Dict.get r "profile_url" = None) ->
          detect_leadership_changes previous current = [no_change_record]) as Hun.
  { intros Hp Hc. unfold detect_leadership_changes.
    now rewrite (prev_urls_unidentified previous Hp), (curr_urls_unidentified current Hc). }
  revert Hun.
  destruct (loops_from_empty previous current) as [-> ->].
  rewrite detect_spec.
  pose proof (event_kind previous current) as Hk.
  destruct (departures previous current ++ arrivals previous current)%list
    as [|c0 rest] eqn:E.
  - intros Hun. apply app_eq_nil in E as [-> ->].
    split; [split; auto|].
    split; [reflexivity|].
    split; [|repeat split].
    intros c c' [<-|[]] Hc. discriminate.
  - intros Hun.
    assert (forall c, In c (c0 :: rest) ->
                      LeadershipChange.change_type c <> no_change) as Hn
      by (intros c Hc; apply event_not_no_change, Hk, Hc).
    split; [split|].
    + intros H. injection H as -> ->. exfalso.
      apply (Hn no_change_record); [now left | reflexivity].
    + intros [H1 H2]. rewrite H1, H2 in E. discriminate.
    + split; [|split; [|repeat split; try exact Hun]].
      * intros c Hc Hnc. exfalso. exact (Hn c Hc Hnc).
      * intros c c' _ _ Hc'. exact (Hn c' Hc').
Qed.

(** C10: in the output every departure record comes before every arrival
    record. *)
Theorem departures_before_arrivals (previous : list CompanyLeadership.t)
    (current : list candidate) (i j : nat) (ci cj : LeadershipChange.t) :
  nth_error (detect_leadership_changes previous current) i = Some ci ->
  nth_error (detect_leadership_changes previous current) j = Some cj ->
  is_departure ci = true -> is_arrival cj = true ->
  i < j.
Proof.
  rewrite detect_spec. intros Hi Hj Hd Ha.
  assert (forall c, In c (departures previous current) -> is_arrival c = false) as HD.
  { unfold departures. intros c (e & <- & _)%in_map_iff.
    pose proof (departure_is_departure (snd e)) as H.
    unfold is_departure, is_arrival in *.
    now destruct (LeadershipChange.change_type (departure_change (snd e))). }
  assert (forall c, In c (arrivals previous current) -> is_departure c = false) as HA.
  { unfold arrivals. intros c (e & <- & _)%in_map_iff.
    pose proof (arrival_is_arrival (snd e)) as H.
    unfold is_departure, is_arrival in *.
    now destruct (LeadershipChange.change_type (arrival_change (snd e))). }
  destruct (departures previous current ++ arrivals previous current)%list
    as [|c0 rest] eqn:E.
  - destruct i as [|[|i]]; cbn in Hi; try discriminate.
    injection Hi as <-. discriminate.
  - rewrite <- E in Hi, Hj. clear E.
    destruct (Nat.lt_ge_cases i (List.length (departures previous current))) as [Hlt|Hge].
    + destruct (Nat.lt_ge_cases j (List.length (departures previous current)))
        as [Hlt'|Hge']; [|lia].
      rewrite nth_error_app1 in Hj by exact Hlt'.
      apply nth_error_In, HD in Hj. congruence.
    + rewrite nth_error_app2 in Hi by exact Hge.
      apply nth_error_In, HA in Hi. congruence.
Qed.

Lemma departures_before_arrivals_witness :
  let previous := [CompanyLeadership.mk "Old CEO" "CEO" (Some "https://linkedin.com/in/old-ceo")] in
  let current := [[("name", "New CEO"); ("title", "CEO");
                   ("profile_url", "https://linkedin.com/in/new-ceo")]] in
  map LeadershipChange.change_type (detect_leadership_changes previous current)
  = [ceo_departure; new_ceo]
  /\ 0 < 1.
Proof.
  intros previous current. split; [reflexivity|].
  apply (departures_before_arrivals previous current 0 1
           (departure_change (CompanyLeadership.mk "Old CEO" "CEO"
              (Some "https://linkedin.com/in/old-ceo")))
           (arrival_change [("name", "New CEO"); ("title", "CEO");
                            ("profile_url", "https://linkedin.com/in/new-ceo")]));
    reflexivity.
Defined.







End LeadershipProps.

(** ** Properties of the relevance scorer *)

Module NewsProps.
Import NewsMonitoring.

Section Scorer.
Variable urlparse_netloc : string -> string.
Variable llm : article -> string -> Config.t -> bool.

(** Without the language model the confidence is the sum of the weights of
    the signals that matched, and the evidence lists them in order. *)
Lemma verify_without_llm (art : article) (company_name : string)
    (homepage_url logo_hash : option string) (config : Config.t) :
  Config.llm_enabled config = false ->
  let r := _verify_article urlparse_netloc llm art company_name homepage_url
             logo_hash config in
  (fst r == (if domain_match urlparse_netloc art homepage_url then 0.30 else 0)
            + (if name_context_match art company_name then 0.15 else 0))%Q
  /\ snd r = ((if domain_match urlparse_netloc art homepage_url
               then ["domain_match"] else [])
              ++ (if name_context_match art company_name
                  then ["name_context"] else []))%list.
Proof.
  intros Hllm r. subst r.
  unfold _verify_article, domain_match, name_context_match. cbv zeta.
  rewrite Hllm.
  destruct homepage_url as [url|]; [destruct (Py.truthy url)|];
    cbn [andb];
    try destruct (Py.truthy (Py.removeprefix (urlparse_netloc url) "www."));
    cbn [andb];
    try destruct (Re.search false _ _);
    destruct (Py.contains (Py.lower company_name) _); cbn [andb];
    try destruct (existsb _ business_context_words);
    destruct logo_hash; cbn [fst snd app]; split;
    try reflexivity.
Qed.

(** C7: with no language model (and the logo signal contributing
    nothing), a domain match alone gives a confidence of at least 0.30 and
    below the threshold 0.40; a domain match with a name-in-context match
    gives at least 0.40. *)
Theorem relevance_thresholds (art : article) (company_name : string)
    (homepage_url logo_hash : option string) (config : Config.t) :
  Config.llm_enabled config = false ->
  domain_match urlparse_netloc art homepage_url = true ->
  let confidence :=
    fst (_verify_article urlparse_netloc llm art company_name homepage_url
           logo_hash config) in
  (name_context_match art company_name = false ->
   (0.30 <= confidence)%Q /\ (confidence < VERIFICATION_THRESHOLD)%Q)
  /\ (name_context_match art company_name = true ->
      (VERIFICATION_THRESHOLD <= confidence)%Q).
Proof.
  intros Hllm Hd confidence. subst confidence.
  destruct (verify_without_llm art company_name homepage_url logo_hash config Hllm)
    as [Hc _].
  rewrite Hd in Hc. unfold VERIFICATION_THRESHOLD.
  split; intros Hn; rewrite Hn in Hc; rewrite Hc; [split|]; lra.
Qed.

(** C8, amended: the logo signal is a placeholder.  The confidence is the
    sum of the weights of the three other signals, whatever the logo hash;
    the evidence holds their tags only; and the result is the same for two
    articles with the same snippet and address on which the language model
    agrees, whatever else the articles carry (an image hash for one) and
    whatever the logo hashes. *)
Theorem logo_never_contributes (art art' : article) (company_name : string)
    (homepage_url h h' : option string) (config : Config.t) :
  get_or_empty art "snippet" = get_or_empty art' "snippet" ->
  get_or_empty art "url" = get_or_empty art' "url" ->
  llm_match llm art company_name config = llm_match llm art' company_name config ->
  let r := _verify_article urlparse_netloc llm art company_name homepage_url h
             config in
  r = _verify_article urlparse_netloc llm art' company_name homepage_url h' config
  /\ (fst r == (if domain_match urlparse_netloc art homepage_url
                then weight "domain" else 0)
               + (if name_context_match art company_name
                  then weight "context" else 0)
               + (if llm_match llm art company_name config
                  then weight "llm" else 0))%Q
  /\ (forall tag, In tag (snd r) ->
        In tag ["domain_match"; "name_context"; "llm_verification"]).
Proof.
  intros Hs Hu Hl r. subst r. split; [|split].
  - unfold llm_match in Hl. unfold _verify_article. cbv zeta.
    rewrite Hs, Hu.
    destruct (Config.llm_enabled config); cbn [andb] in Hl; [rewrite Hl|];
      destruct h, h'; reflexivity.
  - unfold _verify_article, domain_match, name_context_match, llm_match. cbv zeta.
    destruct homepage_url as [url|]; [destruct (Py.truthy url)|];
      cbn [andb];
      try destruct (Py.truthy (Py.removeprefix (urlparse_netloc url) "www."));
      cbn [andb];
      try destruct (Re.search false _ _);
      destruct (Py.contains (Py.lower company_name) _); cbn [andb];
      try destruct (existsb _ business_context_words);
      destruct h;
      destruct (Config.llm_enabled config); cbn [andb];
      try destruct (llm art company_name config);
      cbn [fst snd app]; vm_compute; reflexivity.
  - unfold _verify_article. cbv zeta.
    destruct homepage_url as [url|]; [destruct (Py.truthy url)|];
      try destruct (Py.truthy (Py.removeprefix (urlparse_netloc url) "www."));
      try destruct (Re.search false _ _);
      destruct (Py.contains (Py.lower company_name) _);
      try destruct (existsb _ business_context_words);
      destruct h;
      destruct (Config.llm_enabled config);
      try destruct (llm art company_name config);
      cbn [fst snd app]; intros tag Htag; cbn in Htag |- *; tauto.
Qed.

End Scorer.

Lemma logo_never_contributes_witness :
  let plain := [("title", "Acme funding");
                ("snippet", "Acme raised a new round");
                ("url", "https://acme.com/press")] in
  let pictured := [("title", "Acme funding");
                   ("snippet", "Acme raised a new round");
                   ("url", "https://acme.com/press");
                   ("image_hash", "c3d4a1b2")] in
  let homepage := Some "https://www.acme.com" in
  _verify_article netloc_of no_llm pictured "Acme" homepage (Some "c3d4a1b2") llm_off
  = _verify_article netloc_of no_llm plain "Acme" homepage None llm_off
  /\ (fst (_verify_article netloc_of no_llm pictured "Acme" homepage
             (Some "c3d4a1b2") llm_off) == 0.45)%Q.
Proof.
  intros plain pictured homepage.
  destruct (logo_never_contributes netloc_of no_llm pictured plain "Acme" homepage
              (Some "c3d4a1b2") None llm_off eq_refl eq_refl eq_refl)
    as (Heq & Hsum & _).
  split; [exact Heq|]. rewrite Hsum. vm_compute. reflexivity.
Defined.

Lemma relevance_thresholds_witness :
  let homepage := Some "https://www.acme.com/about" in
  let alone := [("title", "Weekly links");
                ("snippet", "See acme.com for the full list");
                ("url", "https://news.example.org/links")] in
  let both := [("title", "Acme funding");
               ("snippet", "Acme raised a new round");
               ("url", "https://acme.com/press")] in
  ((0.30 <= fst (_verify_article netloc_of no_llm alone "Acme" homepage None llm_off))%Q
   /\ (fst (_verify_article netloc_of no_llm alone "Acme" homepage None llm_off)
       < VERIFICATION_THRESHOLD)%Q)
  /\ (VERIFICATION_THRESHOLD
      <= fst (_verify_article netloc_of no_llm both "Acme" homepage None llm_off))%Q.
Proof.
  intros homepage alone both. split.
  - apply (relevance_thresholds netloc_of no_llm alone "Acme" homepage None llm_off);
      reflexivity.
  - apply (relevance_thresholds netloc_of no_llm both "Acme" homepage None llm_off);
      reflexivity.
Defined.

(** C8 as stated fails: with a logo hash and an article image hash both
    supplied, the confidence is what it is without them. *)
Lemma logo_weight_counterexample :
  let art := [("snippet", "Quarterly results of Acme");
              ("url", "https://news.example.org/q3");
              ("image_hash", "c3d4a1b2")] in
  let with_logo :=
    fst (_verify_article netloc_of no_llm art "Acme"
           (Some "https://www.acme.com") (Some "c3d4a1b2") llm_off) in
  let without_logo :=
    fst (_verify_article netloc_of no_llm art "Acme"
           (Some "https://www.acme.com") None llm_off) in
  (with_logo == 0)%Q /\ ~ (with_logo == without_logo + weight "logo")%Q.
Proof.
  intros art with_logo without_logo. split; [reflexivity|].
  vm_compute. discriminate.
Qed.

End NewsProps.

(** ** Properties of the change detection *)

Module ChangeDetectionProps.
Import ChangeDetection.

(** C3: the magnitude is [minor] exactly from 0.90 up, [moderate] exactly
    from 0.50 up to 0.90 excluded, [major] exactly below 0.50; so for every
    ratio, those of [0, 1] among them. *)
Theorem magnitude_thresholds (r : Q) :
  (_calculate_magnitude r = minor <-> (0.90 <= r)%Q)
  /\ (_calculate_magnitude r = moderate <-> (0.50 <= r)%Q /\ (r < 0.90)%Q)
  /\ (_calculate_magnitude r = major <-> (r < 0.50)%Q)
  /\ _calculate_magnitude 0.90 = minor
  /\ _calculate_magnitude 0.89 = moderate
  /\ _calculate_magnitude 0.50 = moderate
  /\ _calculate_magnitude 0.49 = major.
Proof.
  unfold _calculate_magnitude.
  destruct (Qle_bool 0.90 r) eqn:E1; [|destruct (Qle_bool 0.50 r) eqn:E2].
  - apply Qle_bool_iff in E1.
    repeat split; try reflexivity; try discriminate; intros; try lra.
    all: intuition lra.
  - apply Qle_bool_iff in E2.
    assert (~ (0.90 <= r)%Q) by (rewrite <- Qle_bool_iff; congruence).
    repeat split; try reflexivity; try discriminate; intros; try lra.
    all: intuition lra.
  - assert (~ (0.90 <= r)%Q) by (rewrite <- Qle_bool_iff; congruence).
    assert (~ (0.50 <= r)%Q) by (rewrite <- Qle_bool_iff; congruence).
    repeat split; try reflexivity; try discriminate; intros; try lra.
    all: intuition lra.
Qed.

(** C4 at a failing input: a new line that begins with [++] reads [+++...]
    in the diff and is dropped with the file header, although it is an
    added line; a new line [b] at the same place is returned. *)
Lemma extract_drops_plus_plus_line :
  let old_content := ("Release notes" ++ Py.newline)%string in
  let new_content :=
    ("Release notes" ++ Py.newline ++ "++counter" ++ Py.newline)%string in
  Difflib.unified_diff (splitlines old_content) (splitlines new_content) ""
  = Some [ "--- "; "+++ "; "@@ -1 +1,2 @@";
           (" Release notes" ++ Py.newline)%string;
           ("+++counter" ++ Py.newline)%string ]
  /\ _extract_diff_lines old_content new_content = Some ""
  /\ _extract_diff_lines old_content
       ("Release notes" ++ Py.newline ++ "counter" ++ Py.newline)%string
     = Some "counter".
Proof. repeat split; vm_compute; reflexivity. Qed.

End ChangeDetectionProps.


(** * Further properties *)

(** ** Keyword search *)

Module SignificanceExtra.
Import Significance SignificanceProps.

Lemma find_at_prefix (sub s : string) (pos p : nat) :
  Py.find_at sub s pos = Some p -> prefix sub (Py.drop (p - pos) s) = true.
Proof.
  revert pos. induction s as [|c s IH]; intros pos H; cbn [Py.find_at] in H.
  - destruct (prefix sub "") eqn:E; [|discriminate].
    injection H as <-. now rewrite Nat.sub_diag.
  - destruct (prefix sub (String c s)) eqn:E.
    + injection H as <-. now rewrite Nat.sub_diag.
    + pose proof (find_at_bounds _ _ _ _ H) as [Hle _].
      apply IH in H. replace (p - pos) with (S (p - S pos)) by lia. exact H.
Qed.

Lemma drop_drop (a b : nat) (s : string) :
  Py.drop a (Py.drop b s) = Py.drop (b + a) s.
Proof.
  revert s. induction b as [|b IH]; intros s; [reflexivity|].
  destruct s as [|c s]; cbn.
  - now destruct a.
  - apply IH.
Qed.

Lemma find_prefix (s sub : string) (start p : nat) :
  Py.find s sub start = Some p -> prefix sub (Py.drop p s) = true.
Proof.
  intros H. pose proof (find_bounds _ _ _ _ H) as [Hle _].
  unfold Py.find in H. destruct (start <=? length s); [|discriminate].
  apply find_at_prefix in H. rewrite drop_drop in H.
  now replace (start + (p - start)) with p in H by lia.
Qed.

Lemma substring_drop (p n : nat) (s : string) :
  substring p n s = substring 0 n (Py.drop p s).
Proof.
  revert s. induction p as [|p IH]; intros s; [reflexivity|].
  destruct s as [|c s]; cbn; [now destruct n | apply IH].
Qed.

Lemma slice_occurrence (s sub : string) (p : nat) :
  prefix sub (Py.drop p s) = true ->
  Py.slice s p (p + length sub) = sub.
Proof.
  intros H. unfold Py.slice.
  replace (p + length sub - p) with (length sub) by lia.
  rewrite substring_drop. now apply prefix_correct.
Qed.

(** An occurrence somewhere at or after the start of the search is found. *)
Lemma find_at_complete (sub s : string) (pos k : nat) :
  prefix sub (Py.drop k s) = true -> k <= length s ->
  exists p, Py.find_at sub s pos = Some p.
Proof.
  revert pos k. induction s as [|c s IH]; intros pos k H Hk; cbn [Py.find_at].
  - assert (k = 0) as -> by (cbn in Hk; lia). cbn [Py.drop] in H. rewrite H. eauto.
  - destruct (prefix sub (String c s)) eqn:E; [eauto|].
    destruct k as [|k]; [cbn [Py.drop] in H; congruence|].
    cbn [Py.drop length] in H, Hk. apply (IH (S pos) k H). lia.
Qed.

Lemma in_find_occurrences (fuel : nat) (content cl cat kw : string) (idx : nat)
    (m : KeywordMatch) :
  In m (find_occurrences fuel content cl cat kw idx) ->
  keyword m = kw /\ category m = cat /\ idx <= position m
  /\ prefix kw (Py.drop (position m) cl) = true
  /\ position m + length kw <= length cl
  /\ is_negated m = _is_negated cl (position m)
  /\ is_false_positive m = _is_false_positive cl (position m) kw.
Proof.
  revert idx. induction fuel as [|fuel IH]; intros idx H; cbn [find_occurrences] in H;
    [destruct H|].
  destruct (Py.find cl kw idx) as [pos|] eqn:E; [|destruct H].
  pose proof (find_bounds _ _ _ _ E) as [Hle Hlen].
  destruct H as [<- | H].
  - cbn. repeat split; auto. now apply find_prefix in E.
  - apply IH in H. intuition lia.
Qed.

Lemma in_find_keywords (content : string) (dict : list (string * list string))
    (m : KeywordMatch) :
  In m (_find_keywords content dict) <->
  exists cat kws kw,
    In (cat, kws) dict /\ In kw kws
    /\ In m (find_occurrences (S (length content)) content (Py.lower content)
               cat kw 0).
Proof.
  unfold _find_keywords. rewrite in_flat_map. split.
  - intros ([cat kws] & Hd & H). apply in_flat_map in H as (kw & Hk & H).
    exists cat, kws, kw. auto.
  - intros (cat & kws & kw & Hd & Hk & H). exists (cat, kws). split; [exact Hd|].
    apply in_flat_map. eauto.
Qed.

Lemma lower_length (s : string) : length (Py.lower s) = length s.
Proof. unfold Py.lower. induction s as [|c s IH]; cbn; congruence. Qed.

(** X1: a reported match is a real one.  Its keyword belongs to its
    category of the taxonomy, stands in the lower-cased content at the
    reported position, within that lower-cased content, and its two flags
    are the filters at that position. *)
Theorem keyword_match_is_occurrence (content : string)
    (dict : list (string * list string)) (m : KeywordMatch) :
  In m (_find_keywords content dict) ->
  (exists kws, In (category m, kws) dict /\ In (keyword m) kws)
  /\ Py.slice (Py.lower content) (position m) (position m + length (keyword m))
     = keyword m
  /\ position m + length (keyword m) <= length (Py.lower content)
  /\ is_negated m = _is_negated (Py.lower content) (position m)
  /\ is_false_positive m
     = _is_false_positive (Py.lower content) (position m) (keyword m).
Proof.
  intros (cat & kws & kw & Hd & Hk & H)%in_find_keywords.
  apply in_find_occurrences in H as (<- & <- & _ & Hp & Hl & Hn & Hf).
  split; [eauto|]. split; [now apply slice_occurrence|]. auto.
Qed.

Lemma keyword_match_is_occurrence_witness :
  let content := "Layoffs announced and company shut down operations" in
  let m := mkKeywordMatch "shut down" 30 "Layoffs announced and company "
             " operations" "closure" false false in
  In m (_find_keywords content NEGATIVE_KEYWORDS)
  /\ Py.slice (Py.lower content) 30 39 = "shut down".
Proof.
  intros content m.
  assert (In m (_find_keywords content NEGATIVE_KEYWORDS)) as H by (vm_compute; auto).
  split; [exact H|].
  exact (proj1 (proj2 (keyword_match_is_occurrence content NEGATIVE_KEYWORDS m H))).
Defined.

(** X2: a keyword of the taxonomy is reported exactly when it occurs in
    the lower-cased content. *)
Theorem keyword_reported_iff_contained (content : string)
    (dict : list (string * list string)) (cat kw : string) (kws : list string) :
  In (cat, kws) dict -> In kw kws ->
  (Py.contains kw (Py.lower content) = true
   <-> exists m, In m (_find_keywords content dict)
                 /\ keyword m = kw /\ category m = cat).
Proof.
  intros Hd Hk. unfold Py.contains. split.
  - destruct (Py.find (Py.lower content) kw 0) as [p|] eqn:E; [intros _|discriminate].
    eexists. split.
    + apply in_find_keywords. exists cat, kws, kw. repeat split; auto.
      cbn [find_occurrences]. rewrite E. left. reflexivity.
    + split; reflexivity.
  - intros (m & Hm & <- & <-).
    apply in_find_keywords in Hm as (cat' & kws' & kw' & _ & _ & H).
    apply in_find_occurrences in H as (<- & _ & _ & Hp & Hl & _).
    destruct (find_at_complete (keyword m) (Py.lower content) 0 (position m) Hp)
      as [p Hfind]; [lia|].
    unfold Py.find. cbn [Nat.leb Py.drop]. now rewrite Hfind.
Qed.

Lemma keyword_reported_iff_contained_witness :
  Py.contains "bankruptcy" (Py.lower "Filed for Chapter 11 Bankruptcy") = true
  <-> exists m, In m (_find_keywords "Filed for Chapter 11 Bankruptcy"
                         NEGATIVE_KEYWORDS)
                /\ keyword m = "bankruptcy" /\ category m = "financial_distress".
Proof.
  apply (keyword_reported_iff_contained "Filed for Chapter 11 Bankruptcy"
           NEGATIVE_KEYWORDS "financial_distress" "bankruptcy"
           [ "chapter 11"; "chapter 7"; "bankruptcy"; "insolvent";
             "cash crunch"; "default"; "debt crisis" ]).
  - cbn. auto.
  - cbn. auto.
Defined.

(** X3: the occurrences of one keyword are reported from left to right
    and do not overlap. *)
Theorem occurrences_do_not_overlap (fuel : nat)
    (content cl cat kw : string) (idx i j : nat) (mi mj : KeywordMatch) :
  i < j ->
  nth_error (find_occurrences fuel content cl cat kw idx) i = Some mi ->
  nth_error (find_occurrences fuel content cl cat kw idx) j = Some mj ->
  position mi + length kw <= position mj.
Proof.
  revert idx i j. induction fuel as [|fuel IH]; intros idx i j Hij Hi Hj;
    cbn [find_occurrences] in *; [now destruct i|].
  destruct (Py.find cl kw idx) as [pos|] eqn:E; [|now destruct i].
  destruct j as [|j]; [lia|]. cbn [nth_error] in Hj.
  destruct i as [|i].
  - injection Hi as <-. cbn [position].
    apply nth_error_In, in_find_occurrences in Hj. intuition lia.
  - cbn [nth_error] in Hi. apply (IH (pos + length kw) i j); auto. lia.
Qed.

Lemma occurrences_do_not_overlap_witness :
  let content := "closed, closed and closed" in
  map position
    (find_occurrences (S (length content)) content (Py.lower content)
       "closure" "closed" 0) = [0; 8; 19]
  /\ 0 + length "closed" <= 8.
Proof.
  intros content. split; [reflexivity|].
  apply (occurrences_do_not_overlap (S (length content)) content
           (Py.lower content) "closure" "closed" 0 0 1
           (mkKeywordMatch "closed" 0 "" ", closed and closed" "closure" false false)
           (mkKeywordMatch "closed" 8 "closed, " " and closed" "closure" false false));
    [lia | reflexivity | reflexivity].
Defined.

(** *** The cascade *)

(** Brings the result of [analyze_significance] down to the counts the
    rules read, and splits on the tests of the cascade. *)
Ltac cascade content magnitude :=
  unfold analyze_significance, negated_total, fp_total, effective_count,
    raw_negative, raw_positive in *;
  set (P := _find_keywords content POSITIVE_KEYWORDS) in *;
  set (N := _find_keywords content NEGATIVE_KEYWORDS) in *;
  set (I := _find_insignificant_patterns content) in *;
  clearbody P N I; cbv zeta in *;
  set (p := List.length (filter effective P)) in *;
  set (n := List.length (filter effective N)) in *;
  set (k := List.length (filter is_negated (P ++ N)%list)) in *;
  set (f := List.length (filter is_false_positive (P ++ N)%list)) in *;
  clearbody p n k f;
  destruct (Nat.eqb_spec (p + n) 0);
  destruct (Nat.leb_spec 2 n);
  destruct (Nat.leb_spec 2 p);
  destruct (Nat.leb_spec 1 (p + n));
  destruct I; destruct magnitude;
  cbn [andb negb ChangeMagnitude_eqb classification sentiment confidence
       matched_keywords matched_categories];
  try lia.

(** X4: the classification by the effective counts.  [insignificant]
    exactly without an effective match; [uncertain] exactly with one
    positive, one negative or one of each unless the magnitude is [major];
    [significant] otherwise. *)
Theorem classification_by_counts (content : string) (magnitude : ChangeMagnitude) :
  let p := effective_count (raw_positive content) in
  let n := effective_count (raw_negative content) in
  let r := analyze_significance content magnitude in
  (classification r = insignificant <-> p + n = 0)
  /\ (classification r = uncertain
      <-> 1 <= p + n /\ p < 2 /\ n < 2 /\ magnitude <> major)
  /\ (classification r = significant
      <-> 2 <= n \/ 2 <= p \/ (1 <= p + n /\ magnitude = major)).
Proof.
  cbv zeta. cascade content magnitude;
    (split; [|split]); split; intros; try discriminate; try lia;
    try reflexivity; intuition (try discriminate; try congruence; try lia).
Qed.

(** X5: the sentiment by the effective counts, at every magnitude and in
    every rule; a sentiment other than [neutral] only comes with
    [significant]. *)
Theorem sentiment_by_counts (content : string) (magnitude : ChangeMagnitude) :
  let p := effective_count (raw_positive content) in
  let n := effective_count (raw_negative content) in
  let r := analyze_significance content magnitude in
  (sentiment r = mixed <-> 2 <= p /\ 2 <= n)
  /\ (sentiment r = positive <-> 2 <= p /\ n < 2)
  /\ (sentiment r = negative <-> p < 2 /\ 2 <= n)
  /\ (sentiment r = neutral <-> p < 2 /\ n < 2)
  /\ (sentiment r <> neutral -> classification r = significant).
Proof.
  cbv zeta. cascade content magnitude; unfold _classify_sentiment;
    repeat match goal with
    | |- context [2 <=? ?x] => destruct (Nat.leb_spec 2 x); try lia
    end; cbn [andb];
    repeat split; intros; try discriminate; try lia; try reflexivity;
    try congruence; intuition (try discriminate; try lia).
Qed.

Lemma penalized_le (base b : Q) (k f : nat) :
  (base <= b)%Q -> (0 <= b)%Q -> (penalized base k f <= b)%Q.
Proof.
  intros Hb H0. rewrite penalized_formula.
  assert (0 <= count_of k)%Q by (unfold count_of; rewrite <- (Zle_Qle 0); lia).
  assert (0 <= count_of f)%Q by (unfold count_of; rewrite <- (Zle_Qle 0); lia).
  apply Q.max_lub; [exact H0|].
  eapply Qle_trans; [apply Q.le_min_r|]. lra.
Qed.

Lemma py_min_le_r (x y : Q) : (Py.min x y <= y)%Q.
Proof. rewrite py_min_spec. apply Q.le_min_r. Qed.

(** X6: the confidence by classification.  An [insignificant] result
    carries 0.85 or 0.75, an [uncertain] one at most 0.50, and no result
    more than 0.95. *)
Theorem confidence_by_classification (content : string)
    (magnitude : ChangeMagnitude) :
  let r := analyze_significance content magnitude in
  (classification r = insignificant -> confidence r = 0.85%Q \/ confidence r = 0.75%Q)
  /\ (classification r = uncertain -> (confidence r <= 0.50)%Q)
  /\ (confidence r <= 0.95)%Q.
Proof.
  cbv zeta. cascade content magnitude;
    (split; [|split]); intros; try discriminate; auto;
    try (apply penalized_le;
         [first [lra | eapply Qle_trans; [apply py_min_le_r | lra]] | lra]);
    lra.
Qed.

(** X7: rules 3 to 5, when fewer than two negative matches are effective.
    Two or more effective positive matches give [significant] with
    min(0.80 + 0.03 (p - 2), 0.90); a single match gives [significant]
    with 0.70 at magnitude [major] and [uncertain] with 0.50 otherwise;
    each less the penalties, clamped. *)
Theorem lower_rules_confidence (content : string) (magnitude : ChangeMagnitude) :
  let p := effective_count (raw_positive content) in
  let n := effective_count (raw_negative content) in
  let k := negated_total content in
  let f := fp_total content in
  let r := analyze_significance content magnitude in
  n < 2 ->
  (2 <= p ->
   classification r = significant
   /\ (confidence r == clamped (Qmin (0.80 + 0.03 * (count_of p - 2)) 0.90) k f)%Q)
  /\ (p < 2 -> 1 <= p + n -> magnitude = major ->
      classification r = significant /\ (confidence r == clamped 0.70 k f)%Q)
  /\ (p < 2 -> 1 <= p + n -> magnitude <> major ->
      classification r = uncertain /\ (confidence r == clamped 0.50 k f)%Q).
Proof.
  cbv zeta. unfold clamped. cascade content magnitude; intros _;
    (split; [|split]); intros; try lia; try congruence;
    (split; [reflexivity|]); rewrite penalized_formula; try reflexivity.
  all: apply Q.max_compat; [reflexivity|];
    apply Q.min_compat; [reflexivity|];
    rewrite py_min_spec; unfold count_of, Z.sub; rewrite inject_Z_plus;
    reflexivity.
Qed.

Lemma lower_rules_confidence_witness :
  (classification (analyze_significance
     "Raised Series B funding and hiring new team members" moderate) = significant
   /\ (confidence (analyze_significance
         "Raised Series B funding and hiring new team members" moderate)
       == 0.86)%Q)
  /\ (confidence (analyze_significance "layoffs" major) == 0.70)%Q
  /\ (confidence (analyze_significance "hiring" minor) == 0.50)%Q.
Proof.
  split; [|split].
  - destruct (lower_rules_confidence
                "Raised Series B funding and hiring new team members" moderate)
      as [H _]; [vm_compute; lia|].
    destruct H as [Hc Hq]; [vm_compute; lia|].
    split; [exact Hc|]. rewrite Hq. vm_compute. reflexivity.
  - destruct (lower_rules_confidence "layoffs" major) as (_ & H & _);
      [vm_compute; lia|].
    destruct H as [_ Hq]; [vm_compute; lia | vm_compute; lia | reflexivity|].
    rewrite Hq. vm_compute. reflexivity.
  - destruct (lower_rules_confidence "hiring" minor) as (_ & _ & H);
      [vm_compute; lia|].
    destruct H as [_ Hq]; [vm_compute; lia | vm_compute; lia | discriminate|].
    rewrite Hq. vm_compute. reflexivity.
Defined.

Lemma insignificant_matches_empty (content : string) :
  _find_insignificant_patterns content = [] <->
  has_insignificant_pattern content = false.
Proof.
  unfold _find_insignificant_patterns, has_insignificant_pattern.
  generalize (Py.lower content) as cl. intros cl.
  induction INSIGNIFICANT_PATTERNS as [|[cat pats] rest IH]; cbn [flat_map existsb];
    [easy|].
  assert (flat_map (fun pattern =>
            if Py.contains pattern cl
            then [mkKeywordMatch pattern 0 "" "" cat false false] else []) pats = []
          <-> existsb (fun pattern => Py.contains pattern cl) pats = false) as Hp.
  { induction pats as [|pat pats IHp]; cbn [flat_map existsb]; [easy|].
    destruct (Py.contains pat cl); cbn; [easy | exact IHp]. }
  split.
  - intros [H1 H2]%app_eq_nil. apply Hp in H1. apply IH in H2.
    now rewrite H1, H2.
  - intros [H1 H2]%orb_false_iff. apply Hp in H1. apply IH in H2.
    now rewrite H1, H2.
Qed.

(** X8: rules 1 and 6, when no match is effective.  The patterns of the
    insignificant taxonomy are the evidence, with 0.85, only at magnitude
    [minor]; at any other magnitude, or without such a pattern, the result
    carries 0.75 and no evidence. *)
Theorem insignificant_result (content : string) (magnitude : ChangeMagnitude) :
  let r := analyze_significance content magnitude in
  effective_count (raw_positive content)
  + effective_count (raw_negative content) = 0 ->
  classification r = insignificant /\ sentiment r = neutral
  /\ (magnitude = minor -> has_insignificant_pattern content = true ->
      confidence r = 0.85%Q
      /\ matched_keywords r = map keyword (_find_insignificant_patterns content)
      /\ matched_keywords r <> [])
  /\ (magnitude <> minor \/ has_insignificant_pattern content = false ->
      confidence r = 0.75%Q
      /\ matched_keywords r = [] /\ matched_categories r = []).
Proof.
  cbv zeta. intros H0.
  pose proof (insignificant_matches_empty content) as HI.
  unfold analyze_significance, effective_count, raw_positive, raw_negative in *.
  set (P := _find_keywords content POSITIVE_KEYWORDS) in *.
  set (N := _find_keywords content NEGATIVE_KEYWORDS) in *.
  set (I := _find_insignificant_patterns content) in *.
  clearbody P N I. cbv zeta.
  set (p := List.length (filter effective P)) in *.
  set (n := List.length (filter effective N)) in *.
  assert (p = 0) as -> by lia. assert (n = 0) as -> by lia.
  cbn [Nat.add Nat.eqb Nat.leb andb].
  destruct (has_insignificant_pattern content).
  - destruct I as [|i0 I]; [now apply proj1 in HI; specialize (HI eq_refl)|].
    destruct magnitude; cbn; repeat split; intros; try reflexivity;
      try discriminate; intuition (try discriminate; try congruence).
  - apply proj2 in HI. rewrite (HI eq_refl).
    destruct magnitude; cbn; repeat split; intros; try reflexivity;
      try discriminate; intuition (try discriminate; try congruence).
Qed.

Lemma insignificant_result_witness :
  confidence (analyze_significance "Updated font-family to Helvetica" minor)
  = 0.85%Q
  /\ matched_keywords (analyze_significance "Updated font-family to Helvetica" minor)
     = ["font-family"]
  /\ confidence (analyze_significance "Updated font-family to Helvetica" moderate)
     = 0.75%Q
  /\ matched_keywords
       (analyze_significance "Updated font-family to Helvetica" moderate) = [].
Proof.
  destruct (insignificant_result "Updated font-family to Helvetica" minor)
    as (_ & _ & H & _); [reflexivity|].
  destruct H as (Hc & Hk & _); [reflexivity | reflexivity |].
  destruct (insignificant_result "Updated font-family to Helvetica" moderate)
    as (_ & _ & _ & H'); [reflexivity|].
  destruct H' as (Hc' & Hk' & _); [left; discriminate|].
  repeat split; auto.
Defined.

Lemma penalized_unpenalized (base : Q) :
  (0 <= base)%Q -> (base <= 1)%Q -> (penalized base 0 0 == base)%Q.
Proof.
  intros H0 H1. rewrite penalized_formula. unfold count_of. cbn [Z.of_nat].
  assert (base - 0.20 * inject_Z 0 - 0.30 * inject_Z 0 == base)%Q as ->
    by (unfold inject_Z; ring).
  rewrite (Q.min_r 1 base H1). now apply Q.max_r.
Qed.

Lemma rule2_base_bounds (n : nat) :
  2 <= n ->
  let base := Py.min (0.80 + 0.05 * inject_Z (Z.of_nat n - 2)) 0.95 in
  (0.80 <= base)%Q /\ (base <= 0.95)%Q /\ (5 <= n -> (base == 0.95)%Q).
Proof.
  intros Hn base. subst base.
  assert (0 <= inject_Z (Z.of_nat n - 2))%Q as H0 by (rewrite <- (Zle_Qle 0); lia).
  split; [|split].
  - rewrite py_min_spec. apply Q.min_glb; lra.
  - apply py_min_le_r.
  - intros H5. rewrite py_min_spec. apply Q.min_r.
    assert (3 <= inject_Z (Z.of_nat n - 2))%Q by (rewrite <- (Zle_Qle 3); lia).
    lra.
Qed.

Lemma rule3_base_bounds (p : nat) :
  2 <= p ->
  let base := Py.min (0.80 + 0.03 * inject_Z (Z.of_nat p - 2)) 0.90 in
  (0.80 <= base)%Q /\ (base <= 0.90)%Q.
Proof.
  intros Hp base. subst base.
  assert (0 <= inject_Z (Z.of_nat p - 2))%Q as H0 by (rewrite <- (Zle_Qle 0); lia).
  split.
  - rewrite py_min_spec. apply Q.min_glb; lra.
  - apply py_min_le_r.
Qed.

(** X9: without a negated and without a false-positive raw match the
    confidences are those of the docstring: 0.80 to 0.95 for two or more
    negative matches (0.95 from five on), 0.80 to 0.90 for two or more
    positive ones, 0.70 and 0.50 for a single match. *)
Theorem unpenalized_confidence (content : string) (magnitude : ChangeMagnitude) :
  let p := effective_count (raw_positive content) in
  let n := effective_count (raw_negative content) in
  let r := analyze_significance content magnitude in
  negated_total content = 0 -> fp_total content = 0 ->
  (2 <= n -> (0.80 <= confidence r <= 0.95)%Q
             /\ (5 <= n -> (confidence r == 0.95)%Q))
  /\ (n < 2 -> 2 <= p -> (0.80 <= confidence r <= 0.90)%Q)
  /\ (n < 2 -> p < 2 -> 1 <= p + n ->
      (confidence r == (if ChangeMagnitude_eqb magnitude major then 0.70 else 0.50))%Q).
Proof.
  cbv zeta. intros Hk Hf.
  unfold analyze_significance, negated_total, fp_total, effective_count,
    raw_negative, raw_positive in *.
  set (P := _find_keywords content POSITIVE_KEYWORDS) in *.
  set (N := _find_keywords content NEGATIVE_KEYWORDS) in *.
  set (I := _find_insignificant_patterns content) in *.
  clearbody P N I. cbv zeta. rewrite Hk, Hf. clear Hk Hf.
  set (p := List.length (filter effective P)).
  set (n := List.length (filter effective N)).
  clearbody p n.
  split; [|split].
  - intros Hn. pose proof (rule2_base_bounds n Hn) as (Hlo & Hhi & H5).
    replace (p + n =? 0) with false by (symmetry; apply Nat.eqb_neq; lia).
    replace (2 <=? n) with true by (symmetry; apply Nat.leb_le; lia).
    cbn [andb confidence].
    rewrite penalized_unpenalized by lra.
    split; [split; assumption | exact H5].
  - intros Hn Hp. pose proof (rule3_base_bounds p Hp) as (Hlo & Hhi).
    replace (p + n =? 0) with false by (symmetry; apply Nat.eqb_neq; lia).
    replace (2 <=? n) with false by (symmetry; apply Nat.leb_gt; lia).
    replace (2 <=? p) with true by (symmetry; apply Nat.leb_le; lia).
    cbn [andb confidence].
    rewrite penalized_unpenalized by lra. split; assumption.
  - intros Hn Hp H1.
    replace (p + n =? 0) with false by (symmetry; apply Nat.eqb_neq; lia).
    replace (2 <=? n) with false by (symmetry; apply Nat.leb_gt; lia).
    replace (2 <=? p) with false by (symmetry; apply Nat.leb_gt; lia).
    replace (1 <=? p + n) with true by (symmetry; apply Nat.leb_le; lia).
    cbn [andb].
    destruct (ChangeMagnitude_eqb magnitude major); cbn [confidence];
      apply penalized_unpenalized; lra.
Qed.

Lemma unpenalized_confidence_witness :
  (0.80 <= confidence (analyze_significance
                         "layoffs and shutdown and bankruptcy" major) <= 0.95)%Q.
Proof.
  destruct (unpenalized_confidence "layoffs and shutdown and bankruptcy" major)
    as [H _]; [reflexivity | reflexivity |].
  apply H. vm_compute. lia.
Defined.

Lemma find_keywords_contained (content : string)
    (dict : list (string * list string)) (m : KeywordMatch) :
  In m (_find_keywords content dict) ->
  Py.contains (keyword m) (Py.lower content) = true.
Proof.
  intros (cat & kws & kw & _ & _ & H)%in_find_keywords.
  apply in_find_occurrences in H as (<- & _ & _ & Hp & Hl & _).
  destruct (find_at_complete (keyword m) (Py.lower content) 0 (position m) Hp)
    as [q Hfind]; [lia|].
  unfold Py.contains, Py.find. cbn [Nat.leb Py.drop]. now rewrite Hfind.
Qed.

Lemma insignificant_patterns_contained (content : string) (m : KeywordMatch) :
  In m (_find_insignificant_patterns content) ->
  Py.contains (keyword m) (Py.lower content) = true.
Proof.
  unfold _find_insignificant_patterns.
  intros ([cat pats] & _ & H)%in_flat_map.
  apply in_flat_map in H as (pat & _ & H).
  destruct (Py.contains pat (Py.lower content)) eqn:E; [|destruct H].
  destruct H as [<-|[]]. exact E.
Qed.

(** X10: the evidence is grounded in the content.  Every keyword listed in
    [matched_keywords] occurs in the lower-cased content. *)
Theorem evidence_occurs_in_content (content : string)
    (magnitude : ChangeMagnitude) (kw : string) :
  In kw (matched_keywords (analyze_significance content magnitude)) ->
  Py.contains kw (Py.lower content) = true.
Proof.
  unfold analyze_significance. cbv zeta.
  assert (In kw (map keyword
            (filter effective (_find_keywords content POSITIVE_KEYWORDS)
             ++ filter effective (_find_keywords content NEGATIVE_KEYWORDS))%list) ->
          Py.contains kw (Py.lower content) = true) as Heff.
  { intros (m & <- & Hm)%in_map_iff.
    apply in_app_or in Hm as [Hm|Hm]; apply filter_In in Hm as [Hm _];
      now apply find_keywords_contained in Hm. }
  repeat match goal with
  | |- context [if ?b then _ else _] => destruct b
  end; cbn [matched_keywords]; auto; try (intros []).
  intros (m & <- & Hm)%in_map_iff. now apply insignificant_patterns_contained.
Qed.

Lemma evidence_occurs_in_content_witness :
  Py.contains "series b" (Py.lower "We raised a $50M Series B round") = true.
Proof.
  apply (evidence_occurs_in_content "We raised a $50M Series B round" moderate).
  vm_compute. auto.
Defined.

(** X11: content shorter than three characters, the empty content with
    it, matches no keyword and is [insignificant]; the empty content gets
    0.75 and no evidence at every magnitude. *)
Theorem short_content_is_insignificant (content : string)
    (magnitude : ChangeMagnitude) :
  length content < 3 ->
  raw_positive content = [] /\ raw_negative content = []
  /\ classification (analyze_significance content magnitude) = insignificant
  /\ analyze_significance "" magnitude
     = mkSignificanceResult insignificant neutral 0.75 [] [].
Proof.
  intros Hlen.
  assert (forall dict, keywords_at_least 3 dict = true ->
                       _find_keywords content dict = []) as Hnone.
  { intros dict Hd. destruct (_find_keywords content dict) as [|m l] eqn:E;
      [reflexivity|exfalso].
    assert (In m (_find_keywords content dict)) as Hm by (rewrite E; now left).
    apply in_find_keywords in Hm as (cat & kws & kw & Hin & Hk & Hm).
    apply in_find_occurrences in Hm as (_ & _ & _ & _ & Hl & _).
    rewrite lower_length in Hl.
    unfold keywords_at_least in Hd. rewrite forallb_forall in Hd.
    specialize (Hd _ Hin). cbn beta iota in Hd. rewrite forallb_forall in Hd.
    specialize (Hd _ Hk). cbn beta in Hd. apply Nat.leb_le in Hd. lia. }
  assert (raw_positive content = []) as HP by (apply Hnone; reflexivity).
  assert (raw_negative content = []) as HN by (apply Hnone; reflexivity).
  split; [exact HP|]. split; [exact HN|]. split.
  - unfold analyze_significance. fold (raw_positive content) (raw_negative content).
    rewrite HP, HN. cbn [filter List.length Nat.add Nat.eqb Nat.leb andb app].
    now destruct (negb _ && _).
  - now destruct magnitude.
Qed.

Lemma short_content_is_insignificant_witness :
  classification (analyze_significance "ok" major) = insignificant.
Proof.
  apply (short_content_is_insignificant "ok" major). cbn. lia.
Defined.

(** *** Letter case *)

Lemma lower_char_idempotent (c : ascii) :
  Py.lower_char (Py.lower_char c) = Py.lower_char c.
Proof. destruct c as [[] [] [] [] [] [] [] []]; reflexivity. Qed.

Lemma lower_idempotent (s : string) : Py.lower (Py.lower s) = Py.lower s.
Proof.
  unfold Py.lower. induction s as [|c s IH]; cbn; [reflexivity|].
  now rewrite lower_char_idempotent, IH.
Qed.

Lemma find_occurrences_core (fuel : nat) (c c' cl cat kw : string) (idx : nat) :
  map core (find_occurrences fuel c cl cat kw idx)
  = map core (find_occurrences fuel c' cl cat kw idx).
Proof.
  revert idx. induction fuel as [|fuel IH]; intros idx; cbn [find_occurrences];
    [reflexivity|].
  destruct (Py.find cl kw idx) as [pos|]; [|reflexivity].
  cbn [map]. now rewrite IH.
Qed.

Lemma map_flat_map {A B C} (f : B -> C) (g : A -> list B) (l : list A) :
  map f (flat_map g l) = flat_map (fun x => map f (g x)) l.
Proof.
  induction l as [|a l IH]; cbn; [reflexivity|]. now rewrite map_app, IH.
Qed.

Lemma find_keywords_core (c c' : string) (dict : list (string * list string)) :
  length c' = length c -> Py.lower c' = Py.lower c ->
  map core (_find_keywords c' dict) = map core (_find_keywords c dict).
Proof.
  intros Hlen Hlow. unfold _find_keywords. rewrite Hlen, Hlow, !map_flat_map.
  apply flat_map_ext. intros [cat kws]. rewrite !map_flat_map.
  apply flat_map_ext. intros kw. apply find_occurrences_core.
Qed.

Lemma filter_core (g : string * nat * string * bool * bool -> bool)
    (l l' : list KeywordMatch) :
  map core l = map core l' ->
  map core (filter (fun m => g (core m)) l)
  = map core (filter (fun m => g (core m)) l').
Proof.
  revert l'. induction l as [|m l IH]; intros [|m' l'] H; cbn [map] in H;
    try discriminate; [reflexivity|].
  assert (core m = core m') as Hm by congruence.
  assert (map core l = map core l') as Hl by congruence.
  cbn [filter]. rewrite Hm. destruct (g (core m')); cbn [map];
    rewrite ?Hm, (IH l' Hl); reflexivity.
Qed.

Lemma length_by_core (l l' : list KeywordMatch) :
  map core l = map core l' -> List.length l = List.length l'.
Proof. intros H. now rewrite <- (length_map core l), H, length_map. Qed.

Lemma keywords_by_core (l l' : list KeywordMatch) :
  map core l = map core l' ->
  map keyword l = map keyword l' /\ map category l = map category l'.
Proof.
  intros H. split.
  - change keyword with (fun m => fst (fst (fst (fst (core m))))).
    rewrite <- !(map_map core (fun x => fst (fst (fst (fst x))))). now rewrite H.
  - change category with (fun m => snd (fst (fst (core m)))).
    rewrite <- !(map_map core (fun x => snd (fst (fst x)))). now rewrite H.
Qed.

(** The classifier reads of the matches only the keyword, the position,
    the category and the two flags. *)
Lemma analyze_by_core (c c' : string) (magnitude : ChangeMagnitude) :
  map core (raw_positive c') = map core (raw_positive c) ->
  map core (raw_negative c') = map core (raw_negative c) ->
  _find_insignificant_patterns c' = _find_insignificant_patterns c ->
  analyze_significance c' magnitude = analyze_significance c magnitude.
Proof.
  unfold raw_positive, raw_negative, analyze_significance. intros HP HN ->.
  set (P := _find_keywords c POSITIVE_KEYWORDS) in *.
  set (N := _find_keywords c NEGATIVE_KEYWORDS) in *.
  set (P' := _find_keywords c' POSITIVE_KEYWORDS) in *.
  set (N' := _find_keywords c' NEGATIVE_KEYWORDS) in *.
  clearbody P N P' N'. cbv zeta.
  pose proof (filter_core (fun '(_, _, _, ng, fp) => negb ng && negb fp) _ _ HP) as HeP.
  pose proof (filter_core (fun '(_, _, _, ng, fp) => negb ng && negb fp) _ _ HN) as HeN.
  change (fun m => (fun '(_, _, _, ng, fp) => negb ng && negb fp) (core m))
    with effective in HeP, HeN.
  assert (map core (P' ++ N')%list = map core (P ++ N)%list) as HPN
    by (rewrite !map_app; congruence).
  pose proof (filter_core (fun '(_, _, _, ng, _) => ng) _ _ HPN) as Hng.
  pose proof (filter_core (fun '(_, _, _, _, fp) => fp) _ _ HPN) as Hfp.
  change (fun m => (fun '(_, _, _, ng, _) => ng) (core m)) with is_negated in Hng.
  change (fun m => (fun '(_, _, _, _, fp) => fp) (core m)) with is_false_positive in Hfp.
  assert (map core (filter effective P' ++ filter effective N')%list
          = map core (filter effective P ++ filter effective N)%list) as Hall
    by (rewrite !map_app; congruence).
  rewrite (length_by_core _ _ HeP), (length_by_core _ _ HeN),
    (length_by_core _ _ Hng), (length_by_core _ _ Hfp).
  destruct (keywords_by_core _ _ Hall) as [-> ->].
  reflexivity.
Qed.

(** X12: the classifier ignores letter case: the content and the content
    in lower case get the same result. *)
Theorem analysis_ignores_case (content : string) (magnitude : ChangeMagnitude) :
  analyze_significance (Py.lower content) magnitude
  = analyze_significance content magnitude.
Proof.
  apply analyze_by_core.
  - apply find_keywords_core; [apply lower_length | apply lower_idempotent].
  - apply find_keywords_core; [apply lower_length | apply lower_idempotent].
  - unfold _find_insignificant_patterns. now rewrite lower_idempotent.
Qed.

End SignificanceExtra.

(** ** Leadership titles and rosters *)

Module LeadershipExtra.
Import Leadership DictProps LeadershipProps.

(** X13: a title counts as a leadership title exactly when a leadership
    title can be extracted from it. *)
Theorem leadership_title_iff_extracted (title : string) :
  is_leadership_title title
  = match extract_leadership_title title with Some _ => true | None => false end.
Proof.
  unfold is_leadership_title, extract_leadership_title.
  induction _LEADERSHIP_PATTERNS as [|pattern rest IH]; cbn [existsb first_match];
    [reflexivity|].
  destruct (Re.search true pattern title); [reflexivity | exact IH].
Qed.

(** X14: the seniority rank is one of 1 to 9 or 99, never 0; the ranks 1
    to 4 belong to the normalized titles CEO, Founder, Co-Founder and
    President and to no other; a title outside the table that mentions
    neither a vice president nor a chief ranks last. *)
Theorem rank_title_range (title : string) :
  let normalized := normalize_title title in
  In (rank_title title) [1; 2; 3; 4; 5; 6; 7; 8; 9; 99]
  /\ (rank_title title = 1 <-> normalized = "CEO")
  /\ (rank_title title = 2 <-> normalized = "Founder")
  /\ (rank_title title = 3 <-> normalized = "Co-Founder")
  /\ (rank_title title = 4 <-> normalized = "President")
  /\ (rank_title title = 99
      <-> Dict.get _TITLE_RANK normalized = None
          /\ Py.contains "VP" (Py.upper normalized) = false
          /\ Py.contains "Vice President" normalized = false
          /\ Py.contains "Chief" normalized = false).
Proof.
  intros normalized. unfold rank_title. fold normalized.
  generalize normalized as t. clear. intros t.
  cbn [Dict.get _TITLE_RANK].
  repeat match goal with
  | |- context [String.eqb t ?k] =>
      destruct (String.eqb_spec t k) as [->|?];
      [cbn; intuition (try discriminate; try congruence; try lia)|]
  end.
  destruct (Py.contains "VP" (Py.upper t)), (Py.contains "Vice President" t),
    (Py.contains "Chief" t);
    cbn; intuition (try discriminate; try congruence; try lia).
Qed.

(** *** The maps of identifiers *)

Lemma get_In {V} (d : Dict.t V) (k : string) (v : V) :
  Dict.get d k = Some v -> In (k, v) d.
Proof.
  induction d as [|[k' v'] d IH]; cbn; [discriminate|].
  destruct (String.eqb_spec k k') as [->|Hne].
  - intros [= ->]. now left.
  - intros H. right. auto.
Qed.

Lemma In_mem {V} (d : Dict.t V) (k : string) (v : V) :
  In (k, v) d -> Dict.mem k d = true.
Proof.
  intros H. apply mem_keys. unfold Dict.keys. apply in_map_iff.
  now exists (k, v).
Qed.

Lemma mem_get {V} (d : Dict.t V) (k : string) :
  Dict.mem k d = true -> exists v, Dict.get d k = Some v.
Proof. unfold Dict.mem. destruct (Dict.get d k); [eauto | discriminate]. Qed.

Lemma prev_fold_truthy previous d u :
  Dict.mem u (fold_left prev_step previous d) = true ->
  Dict.mem u d = true \/ previous_id previous u.
Proof.
  revert d. induction previous as [|a rest IH]; intros d H; cbn in H; [now left|].
  apply IH in H as [H | (l & Hin & Hu & Ht)].
  - unfold prev_step in H.
    destruct (CompanyLeadership.linkedin_profile_url a) as [w|] eqn:Ew; [|now left].
    destruct (Py.truthy w) eqn:Et; [|now left].
    destruct (string_dec w u) as [->|Hne].
    + right. exists a. cbn. auto.
    + left. unfold Dict.mem in *. now rewrite get_set_other in H.
  - right. exists l. cbn. auto.
Qed.

Lemma prev_urls_mem_iff previous u :
  Dict.mem u (prev_urls previous) = true <-> previous_id previous u.
Proof.
  split.
  - intros H. apply prev_fold_truthy in H as [H|H]; [discriminate | exact H].
  - intros (l & Hin & Hu & Ht). apply prev_fold_mem. right. eauto.
Qed.

Lemma curr_fold_mem_fwd current d u :
  Dict.mem u d = true \/ current_id current u ->
  Dict.mem u (fold_left curr_step current d) = true.
Proof.
  revert d. induction current as [|a rest IH]; intros d H; cbn.
  - destruct H as [H | (r & [] & _)]. exact H.
  - apply IH. destruct H as [H | (r & [<- | Hin] & Hu & Ht)].
    + left. unfold curr_step, get_or_empty.
      destruct (Dict.get a "profile_url") as [w|]; [|exact H].
      destruct (Py.truthy w); [|exact H].
      unfold Dict.mem. destruct (string_dec w u) as [->|Hne].
      * now rewrite get_set_same.
      * now rewrite get_set_other.
    + left. unfold curr_step, get_or_empty. rewrite Hu, Ht.
      unfold Dict.mem. now rewrite get_set_same.
    + right. exists r. auto.
Qed.

Lemma curr_fold_truthy current d u :
  Dict.mem u (fold_left curr_step current d) = true ->
  Dict.mem u d = true \/ current_id current u.
Proof.
  revert d. induction current as [|a rest IH]; intros d H; cbn in H; [now left|].
  apply IH in H as [H | (r & Hin & Hu & Ht)].
  - unfold curr_step, get_or_empty in H.
    destruct (Dict.get a "profile_url") as [w|] eqn:Ew; [|now left].
    destruct (Py.truthy w) eqn:Et; [|now left].
    destruct (string_dec w u) as [->|Hne].
    + right. exists a. cbn. auto.
    + left. unfold Dict.mem in *. now rewrite get_set_other in H.
  - right. exists r. cbn. auto.
Qed.

Lemma curr_urls_mem_iff current u :
  Dict.mem u (curr_urls current) = true <-> current_id current u.
Proof.
  split.
  - intros H. apply curr_fold_truthy in H as [H|H]; [discriminate | exact H].
  - intros H. apply curr_fold_mem_fwd. now right.
Qed.



Lemma filter_nil {A} (f : A -> bool) (l : list A) :
  filter f l = [] <-> forall x, In x l -> f x = false.
Proof.
  induction l as [|a l IH]; cbn; [easy|].
  destruct (f a) eqn:E.
  - split; [discriminate|]. intros H. specialize (H a (or_introl eq_refl)). congruence.
  - rewrite IH. split.
    + intros H x [<-|Hx]; auto.
    + intros H x Hx. apply H. now right.
Qed.

Lemma no_events_iff previous current :
  detect_leadership_changes previous current = [no_change_record]
  <-> departed previous current = [] /\ arrived previous current = [].
Proof.
  rewrite detect_spec.
  pose proof (event_kind previous current) as Hk.
  unfold departures, arrivals in *.
  destruct (departed previous current) as [|d ds];
    destruct (arrived previous current) as [|a ars];
    [easy| | |]; (split; [|intros [H1 H2]; discriminate]);
    cbn [map app] in *; intros H; exfalso;
    specialize (Hk _ (or_introl eq_refl));
    match type of H with
    | ?c :: _ = _ => assert (c = no_change_record) as E by congruence
    end;
    rewrite E in Hk; discriminate.
Qed.

(** X15: the rosters are compared by identifier alone.  The answer is the
    single [no_change] record exactly when the previous and the current
    roster carry the same set of (non-empty) identifiers, whatever the
    names and titles. *)
Theorem no_change_iff_same_identifiers (previous : list CompanyLeadership.t)
    (current : list candidate) :
  detect_leadership_changes previous current = [no_change_record]
  <-> forall u, previous_id previous u <-> current_id current u.
Proof.
  rewrite no_events_iff. unfold departed, arrived. split.
  - intros [Hd Ha] u.
    pose proof (proj1 (filter_nil _ _) Hd) as Hd'.
    pose proof (proj1 (filter_nil _ _) Ha) as Ha'.
    rewrite <- prev_urls_mem_iff, <- curr_urls_mem_iff. split.
    + intros (v & Hv%get_In)%mem_get. specialize (Hd' _ Hv). cbn in Hd'.
      now apply negb_false_iff in Hd'.
    + intros (v & Hv%get_In)%mem_get. specialize (Ha' _ Hv). cbn in Ha'.
      now apply negb_false_iff in Ha'.
  - intros H. split; apply filter_nil; intros [u v] Hin; cbn; apply negb_false_iff.
    + apply curr_urls_mem_iff, H, prev_urls_mem_iff. exact (In_mem _ _ _ Hin).
    + apply prev_urls_mem_iff, H, curr_urls_mem_iff. exact (In_mem _ _ _ Hin).
Qed.


Lemma absent_from_current current u :
  (forall r, In r current -> Dict.get r "profile_url" <> Some u) ->
  Dict.mem u (curr_urls current) = false.
Proof.
  intros H. destruct (Dict.mem u (curr_urls current)) eqn:E; [|reflexivity].
  apply curr_urls_mem_iff in E as (r & Hin & Hu & _). exfalso. exact (H r Hin Hu).
Qed.

Lemma in_output previous current c :
  In c (departures previous current ++ arrivals previous current)%list ->
  In c (detect_leadership_changes previous current).
Proof.
  rewrite detect_spec.
  now destruct (departures previous current ++ arrivals previous current)%list.
Qed.



Lemma output_cases previous current c :
  In c (detect_leadership_changes previous current) ->
  c = no_change_record
  \/ (exists leader, c = departure_change leader)
  \/ (exists person, c = arrival_change person).
Proof.
  rewrite detect_spec.
  assert (In c (departures previous current ++ arrivals previous current)%list ->
          (exists leader, c = departure_change leader)
          \/ (exists person, c = arrival_change person)) as H.
  { unfold departures, arrivals.
    intros [(e & <- & _)%in_map_iff | (e & <- & _)%in_map_iff]%in_app_or; eauto. }
  destruct (departures previous current ++ arrivals previous current)%list.
  - intros [<-|[]]. now left.
  - intros Hc. right. auto.
Qed.

(** X17: in every output record the severity is [critical] exactly for the
    CEO, founder, CTO and COO departures; a critical record carries
    confidence 0.95 and the significance fields (significant, negative,
    0.95), any other record carries 0.80 or 0.75 and none of them; every
    confidence lies in [0, 1]. *)
Theorem critical_iff_senior_departure (previous : list CompanyLeadership.t)
    (current : list candidate) (c : LeadershipChange.t) :
  In c (detect_leadership_changes previous current) ->
  (LeadershipChange.severity c = "critical"
   <-> In (LeadershipChange.change_type c)
          [ceo_departure; founder_departure; cto_departure; coo_departure])
  /\ (LeadershipChange.severity c = "critical" ->
      LeadershipChange.confidence c = 0.95%Q
      /\ LeadershipChange.significance_classification c = Some significant
      /\ LeadershipChange.significance_sentiment c = Some negative
      /\ LeadershipChange.significance_confidence c = Some 0.95%Q)
  /\ (LeadershipChange.severity c <> "critical" ->
      In (LeadershipChange.severity c) ["notable"; "insignificant"]
      /\ (LeadershipChange.confidence c = 0.80%Q
          \/ LeadershipChange.confidence c = 0.75%Q)
      /\ LeadershipChange.significance_classification c = None
      /\ LeadershipChange.significance_sentiment c = None
      /\ LeadershipChange.significance_confidence c = None)
  /\ (0 <= LeadershipChange.confidence c <= 1)%Q.
Proof.
  intros [-> | [[leader ->] | [person ->]]]%output_cases.
  - cbn. repeat split; intros; try discriminate; try lra;
      intuition (try discriminate; try congruence).
  - unfold departure_change.
    destruct (_departure_type (CompanyLeadership.title leader)) eqn:E; cbn;
      repeat split; intros; try discriminate; try lra;
      try (unfold _departure_type in E;
           repeat match type of E with
           | (if ?b then _ else _) = _ => destruct b
           end; discriminate);
      intuition (try discriminate; try congruence).
  - unfold arrival_change.
    destruct (String.eqb _ "CEO"); cbn;
      repeat split; intros; try discriminate; try lra;
      intuition (try discriminate; try congruence).
Qed.

Lemma critical_iff_senior_departure_witness :
  let jane := CompanyLeadership.mk "Jane Smith" "Founder & CTO"
                (Some "https://linkedin.com/in/jane-smith") in
  LeadershipChange.severity (departure_change jane) = "critical"
  /\ LeadershipChange.confidence (departure_change jane) = 0.95%Q.
Proof.
  intros jane.
  destruct (critical_iff_senior_departure [jane] [] (departure_change jane))
    as (_ & H & _); [now left|].
  destruct H as (Hc & _); [reflexivity|].
  split; [reflexivity | exact Hc].
Defined.

Lemma prev_fold_other rest d u :
  (forall l, In l rest -> CompanyLeadership.linkedin_profile_url l <> Some u) ->
  Dict.get (fold_left prev_step rest d) u = Dict.get d u.
Proof.
  revert d. induction rest as [|a rest IH]; intros d H; cbn; [reflexivity|].
  rewrite IH by (intros l Hl; apply H; now right).
  unfold prev_step.
  destruct (CompanyLeadership.linkedin_profile_url a) as [w|] eqn:Ew; [|reflexivity].
  destruct (Py.truthy w); [|reflexivity].
  apply get_set_other. intros ->. exact (H a (or_introl eq_refl) Ew).
Qed.

(** X18: when several previous records carry one identifier, the map of
    the previous roster holds the last of them. *)
Theorem last_record_wins (before after : list CompanyLeadership.t)
    (l : CompanyLeadership.t) (u : string) :
  CompanyLeadership.linkedin_profile_url l = Some u ->
  Py.truthy u = true ->
  (forall l', In l' after -> CompanyLeadership.linkedin_profile_url l' <> Some u) ->
  Dict.get (prev_urls (before ++ l :: after)) u = Some l.
Proof.
  intros Hu Ht Hafter. unfold prev_urls.
  rewrite fold_left_app. cbn [fold_left].
  rewrite prev_fold_other by exact Hafter.
  unfold prev_step at 1. rewrite Hu, Ht. apply get_set_same.
Qed.

Lemma last_record_wins_witness :
  let old := CompanyLeadership.mk "J. Smith" "CEO" (Some "https://linkedin.com/in/js") in
  let new := CompanyLeadership.mk "Jane Smith" "Advisor" (Some "https://linkedin.com/in/js") in
  Dict.get (prev_urls [old; new]) "https://linkedin.com/in/js" = Some new
  /\ map LeadershipChange.change_type (detect_leadership_changes [old; new] [])
     = [executive_departure].
Proof.
  intros old new. split; [|reflexivity].
  apply (last_record_wins [old] [] new "https://linkedin.com/in/js");
    [reflexivity | reflexivity | intros l' []].
Defined.

(** X19: applying the changes.  Every previous identifier that no current
    record carries is marked as not current; and an address is only marked
    if a previous record with this address bears the name of a departure
    of the output. *)
Theorem departed_are_marked (previous : list CompanyLeadership.t)
    (current : list candidate) :
  let changes := detect_leadership_changes previous current in
  (forall l u,
     In l previous ->
     CompanyLeadership.linkedin_profile_url l = Some u ->
     Py.truthy u = true ->
     (forall r, In r current -> Dict.get r "profile_url" <> Some u) ->
     In u (marked_not_current previous changes))
  /\ (forall u,
        In u (marked_not_current previous changes) ->
        exists c prev,
          In c changes /\ is_departure c = true
          /\ In prev previous
          /\ CompanyLeadership.person_name prev = LeadershipChange.person_name c
          /\ CompanyLeadership.linkedin_profile_url prev = Some u).
Proof.
  intros changes. split.
  - intros l u Hin Hu Ht Habs.
    assert (Dict.mem u (prev_urls previous) = true) as Hmem
      by (apply prev_urls_mem_iff; exists l; auto).
    apply mem_get in Hmem as [leader Hget].
    pose proof Hget as Hl. apply prev_fold_get in Hl as [Hl | [Hl1 Hl2]]; [discriminate|].
    assert (In (departure_change leader) changes) as Hc.
    { apply in_output, in_or_app. left. unfold departures.
      apply in_map_iff. exists (u, leader). split; [reflexivity|].
      unfold departed. apply filter_In. split; [now apply get_In|].
      cbn. now rewrite (absent_from_current current u Habs). }
    unfold marked_not_current. apply in_flat_map.
    exists (departure_change leader). split; [exact Hc|].
    pose proof (departure_is_departure leader) as Hd. unfold is_departure in Hd.
    unfold is_departure_type.
    destruct (LeadershipChange.change_type (departure_change leader));
      try discriminate;
      (apply in_flat_map; exists leader; split; [exact Hl1|];
       cbn [departure_change LeadershipChange.person_name];
       rewrite String.eqb_refl, Hl2, Ht; now left).
  - intros u (c & Hc & Hu)%in_flat_map.
    destruct (is_departure_type (LeadershipChange.change_type c)) eqn:Ed;
      [|destruct Hu].
    apply in_flat_map in Hu as (prev & Hprev & Hu).
    destruct (String.eqb_spec (CompanyLeadership.person_name prev)
                (LeadershipChange.person_name c)) as [Hn|]; [|destruct Hu].
    destruct (CompanyLeadership.linkedin_profile_url prev) as [w|] eqn:Ew;
      [|destruct Hu].
    destruct (Py.truthy w); [|destruct Hu].
    destruct Hu as [<-|[]].
    exists c, prev. repeat split; auto.
Qed.

End LeadershipExtra.

(** ** Relevance of an article *)

Module NewsExtra.
Import NewsMonitoring.

(** X20: the evidence lists, in this order, the tags of the signals that
    hold (domain match, name in context, confirmation by the enabled
    language model), the confidence is the sum of their weights, and it
    lies between 0 and 0.70. *)
Theorem confidence_is_weight_of_evidence
    (urlparse_netloc : string -> string)
    (llm : article -> string -> Config.t -> bool)
    (art : article) (company_name : string)
    (homepage_url logo_hash : option string) (config : Config.t) :
  let r := _verify_article urlparse_netloc llm art company_name homepage_url
             logo_hash config in
  snd r = ((if domain_match urlparse_netloc art homepage_url
            then ["domain_match"] else [])
           ++ (if name_context_match art company_name then ["name_context"] else [])
           ++ (if llm_match llm art company_name config
               then ["llm_verification"] else []))%list
  /\ (fst r == total_weight (snd r))%Q
  /\ (0 <= fst r)%Q /\ (fst r <= 0.70)%Q.
Proof.
  cbv zeta.
  unfold _verify_article, domain_match, name_context_match, llm_match. cbv zeta.
  destruct homepage_url as [url|]; [destruct (Py.truthy url)|];
    cbn [andb];
    try destruct (Py.truthy (Py.removeprefix (urlparse_netloc url) "www."));
    cbn [andb];
    try destruct (Re.search false _ _);
    destruct (Py.contains (Py.lower company_name) _); cbn [andb];
    try destruct (existsb _ business_context_words);
    destruct logo_hash;
    destruct (Config.llm_enabled config); cbn [andb];
    try destruct (llm art company_name config);
    cbn [fst snd app]; (split; [reflexivity|]);
    vm_compute; intuition discriminate.
Qed.

(** X21: an article reaches the threshold 0.40 exactly when at least two
    of the three signals hold. *)
Theorem verified_iff_two_signals
    (urlparse_netloc : string -> string)
    (llm : article -> string -> Config.t -> bool)
    (art : article) (company_name : string)
    (homepage_url logo_hash : option string) (config : Config.t) :
  let r := _verify_article urlparse_netloc llm art company_name homepage_url
             logo_hash config in
  (VERIFICATION_THRESHOLD <= fst r)%Q <-> 2 <= List.length (snd r).
Proof.
  cbv zeta.
  unfold _verify_article. cbv zeta.
  destruct homepage_url as [url|]; [destruct (Py.truthy url)|];
    try destruct (Py.truthy (Py.removeprefix (urlparse_netloc url) "www."));
    try destruct (Re.search false _ _);
    destruct (Py.contains (Py.lower company_name) _);
    try destruct (existsb _ business_context_words);
    destruct logo_hash;
    destruct (Config.llm_enabled config);
    try destruct (llm art company_name config);
    cbn [fst snd app List.length]; unfold VERIFICATION_THRESHOLD;
    (split; [intros H; try lia; exfalso; vm_compute in H; now apply H
            | intros H; try lia; vm_compute; discriminate]).
Qed.

(** X22: the language model is advisory.  With the model switched off its
    answer is not read; and a model that does not confirm the article
    leaves the result as it is with the model switched off. *)
Theorem llm_fails_open
    (urlparse_netloc : string -> string)
    (llm llm' : article -> string -> Config.t -> bool)
    (art : article) (company_name : string)
    (homepage_url logo_hash : option string) (config : Config.t) :
  (Config.llm_enabled config = false ->
   _verify_article urlparse_netloc llm art company_name homepage_url logo_hash config
   = _verify_article urlparse_netloc llm' art company_name homepage_url logo_hash
       config)
  /\ (llm art company_name config = false ->
      _verify_article urlparse_netloc llm art company_name homepage_url logo_hash
        config
      = _verify_article urlparse_netloc llm art company_name homepage_url logo_hash
          llm_off).
Proof.
  unfold _verify_article. cbv zeta. split; intros H.
  - rewrite H. reflexivity.
  - rewrite H. cbn [Config.llm_enabled llm_off Config.llm_validation_enabled andb].
    now destruct (Config.llm_enabled config).
Qed.

Lemma llm_fails_open_witness :
  let art := [("title", "Acme funding");
              ("snippet", "Acme raised a new round");
              ("url", "https://acme.com/press")] in
  _verify_article netloc_of no_llm art "Acme" (Some "https://www.acme.com") None
    llm_off
  = _verify_article netloc_of (fun _ _ _ => true) art "Acme"
      (Some "https://www.acme.com") None llm_off.
Proof.
  intros art.
  apply (llm_fails_open netloc_of no_llm (fun _ _ _ => true) art "Acme"
           (Some "https://www.acme.com") None llm_off).
  reflexivity.
Defined.

End NewsExtra.

(** ** Change records, company status and acquisitions *)

Module ChangeDetectionExtra.
Import Significance SignificanceProps SignificanceExtra ChangeDetection.

Lemma option_string_eqb_spec (x y : option string) :
  option_string_eqb x y = true <-> x = y.
Proof.
  destruct x as [a|], y as [b|]; cbn; try (split; congruence).
  rewrite String.eqb_eq. split; congruence.
Qed.

(** X23: the two degenerate pairs of snapshots.  With equal checksums the
    record says unchanged, magnitude [minor], no diff summary, and carries
    the analysis of the new content itself; with different checksums and an
    empty new content it says changed with magnitude [major], yet
    [insignificant] with confidence 0.75 and no evidence.  In both cases the
    matcher is not run. *)
Theorem degenerate_snapshots (old_markdown new_markdown : option string)
    (old_checksum new_checksum : option string) :
  (old_checksum = new_checksum ->
   exists r,
     change_record old_markdown new_markdown old_checksum new_checksum = Some r
     /\ ChangeRecord.has_changed r = false
     /\ ChangeRecord.change_magnitude r = minor
     /\ ChangeRecord.diff_summary r = None
     /\ let sig :=
          analyze_significance
            (Py.slice (or_empty new_markdown) 0 MAX_COMPARE_LENGTH) minor in
        ChangeRecord.significance_classification r = Some (classification sig)
        /\ ChangeRecord.significance_confidence r = Some (confidence sig)
        /\ ChangeRecord.matched_keywords r = matched_keywords sig)
  /\ (old_checksum <> new_checksum -> or_empty new_markdown = "" ->
      exists r,
        change_record old_markdown new_markdown old_checksum new_checksum = Some r
        /\ ChangeRecord.has_changed r = true
        /\ ChangeRecord.change_magnitude r = major
        /\ ChangeRecord.diff_summary r = None
        /\ ChangeRecord.significance_classification r = Some insignificant
        /\ ChangeRecord.significance_sentiment r = Some neutral
        /\ ChangeRecord.significance_confidence r = Some 0.75%Q
        /\ ChangeRecord.matched_keywords r = []).
Proof.
  unfold change_record. generalize MAX_COMPARE_LENGTH as bound. intros bound.
  split.
  - intros Heq. apply option_string_eqb_spec in Heq.
    rewrite Heq. cbn [negb andb].
    eexists. split; [reflexivity|].
    cbn [ChangeRecord.has_changed ChangeRecord.change_magnitude
         ChangeRecord.diff_summary ChangeRecord.significance_classification
         ChangeRecord.significance_confidence ChangeRecord.matched_keywords
         Py.truthy].
    repeat split; reflexivity.
  - intros Hne Hnew.
    assert (option_string_eqb old_checksum new_checksum = false) as Hb.
    { destruct (option_string_eqb old_checksum new_checksum) eqn:E; [|reflexivity].
      apply option_string_eqb_spec in E. contradiction. }
    rewrite Hb, Hnew.
    assert (Py.slice "" 0 bound = "") as -> by (unfold Py.slice; now destruct (bound - 0)).
    cbn [negb andb Py.truthy]. rewrite andb_false_r.
    eexists. split; [reflexivity|].
    cbn [ChangeRecord.has_changed ChangeRecord.change_magnitude
         ChangeRecord.diff_summary ChangeRecord.significance_classification
         ChangeRecord.significance_sentiment
         ChangeRecord.significance_confidence ChangeRecord.matched_keywords
         Py.truthy].
    repeat split; reflexivity.
Qed.

Lemma degenerate_snapshots_witness :
  exists r,
    change_record (Some "Our team") (Some "Our team") (Some "5d41") (Some "5d41")
    = Some r
    /\ ChangeRecord.has_changed r = false
    /\ ChangeRecord.change_magnitude r = minor.
Proof.
  destruct (degenerate_snapshots (Some "Our team") (Some "Our team")
              (Some "5d41") (Some "5d41")) as [H _].
  destruct (H eq_refl) as (r & Hr & Hc & Hm & _).
  exists r. repeat split; assumption.
Defined.

(** *** Company status *)

Lemma counts_cover (indicators : list StatusIndicator.t) :
  count_signal IndicatorSignal.positive indicators
  + count_signal IndicatorSignal.negative indicators
  + count_signal IndicatorSignal.neutral indicators
  = List.length indicators.
Proof.
  unfold count_signal. induction indicators as [|i l IH]; [reflexivity|].
  cbn [filter]. destruct (StatusIndicator.signal i); cbn [IndicatorSignal.eqb List.length];
    lia.
Qed.

Lemma dominant_cases (d : nat) :
  let c := Py.min (0.4 + 0.2 * inject_Z (Z.of_nat d))%Q 1.0%Q in
  (round2 c == Qmin (0.4 + 0.2 * inject_Z (Z.of_nat d)) 1)%Q
  /\ (Qle_bool 0.5 c = true <-> 1 <= d).
Proof.
  cbv zeta.
  destruct d as [|[|[|[|d]]]].
  1-4: split; [vm_compute; reflexivity|];
    match goal with
    | |- Qle_bool ?a ?b = true <-> _ =>
        let v := eval vm_compute in (Qle_bool a b) in
        replace (Qle_bool a b) with v by (vm_compute; reflexivity)
    end; split; intros; try lia; try congruence; reflexivity.
  assert (4 <= inject_Z (Z.of_nat (S (S (S (S d))))))%Q as H4
    by (rewrite <- (Zle_Qle 4); lia).
  assert (Qle_bool (0.4 + 0.2 * inject_Z (Z.of_nat (S (S (S (S d)))))) 1.0 = false)
    as Hf.
  { destruct (Qle_bool _ 1.0) eqn:E; [|reflexivity].
    apply Qle_bool_iff in E. lra. }
  unfold Py.min. rewrite Hf. split.
  - rewrite Q.min_r by lra. vm_compute. reflexivity.
  - split; [lia | reflexivity].
Qed.

(** X24: the status only depends on which of the positive and the negative
    indicators are more numerous: [operational] exactly when the positive
    ones are, [likely_closed] exactly when the negative ones are, [uncertain]
    exactly on a tie; the test of the confidence against 0.5 never decides.
    The confidence is 0.2 without indicators and min(0.4 + 0.2 d, 1) with d
    the larger of the two counts otherwise, so between 0.2 and 1. *)
Theorem status_by_counts (indicators : list StatusIndicator.t) :
  let p := count_signal IndicatorSignal.positive indicators in
  let n := count_signal IndicatorSignal.negative indicators in
  let status := fst (status_and_confidence indicators) in
  let confidence := snd (status_and_confidence indicators) in
  (status = CompanyStatusType.operational <-> n < p)
  /\ (status = CompanyStatusType.likely_closed <-> p < n)
  /\ (status = CompanyStatusType.uncertain <-> p = n)
  /\ (indicators = [] -> (confidence == 0.2)%Q)
  /\ (indicators <> [] ->
      (confidence == Qmin (0.4 + 0.2 * inject_Z (Z.of_nat (Nat.max p n))) 1)%Q)
  /\ (0.2 <= confidence <= 1)%Q.
Proof.
  cbv zeta. destruct indicators as [|i l].
  - assert (status_and_confidence [] = (CompanyStatusType.uncertain, round2 0.2))
      as -> by (vm_compute; reflexivity).
    cbn [fst snd count_signal filter List.length].
    split; [split; [discriminate | lia]|].
    split; [split; [discriminate | lia]|].
    split; [split; reflexivity|].
    split; [intros _; vm_compute; reflexivity|].
    split; [intros H; now contradiction H|].
    split; vm_compute; discriminate.
  - unfold status_and_confidence. cbv zeta. rewrite counts_cover.
    set (p := count_signal IndicatorSignal.positive (i :: l)).
    set (n := count_signal IndicatorSignal.negative (i :: l)).
    clearbody p n.
    cbn [List.length Nat.eqb fst snd].
    destruct (dominant_cases (Nat.max p n)) as [Hr Hg]. cbv zeta in Hr, Hg.
    set (c := Py.min (0.4 + 0.2 * inject_Z (Z.of_nat (Nat.max p n)))%Q 1.0%Q) in *.
    assert (0 <= inject_Z (Z.of_nat (Nat.max p n)))%Q as H0
      by (rewrite <- (Zle_Qle 0); lia).
    assert (0.2 <= round2 c <= 1)%Q as Hb.
    { rewrite Hr. split; [apply Q.min_glb; lra | apply Q.le_min_r]. }
    destruct (Qle_bool 0.5 c) eqn:E.
    + assert (1 <= Nat.max p n) as Hd by now apply Hg.
      destruct (Nat.ltb_spec n p); destruct (Nat.ltb_spec p n);
        destruct (Nat.eqb_spec p n); cbn [andb]; try lia;
        repeat split; intros; try discriminate; try lia; try reflexivity;
        try congruence; try exact Hr; try apply Hb.
    + assert (~ 1 <= Nat.max p n) as Hd by (intros H; apply Hg in H; congruence).
      assert (p = n) by lia.
      cbn [andb].
      repeat split; intros; try discriminate; try lia; try reflexivity;
        try congruence; try exact Hr; try apply Hb.
Qed.

Lemma status_by_counts_witness :
  let indicators :=
    [StatusIndicator.mk "copyright_year" (Some "2019") IndicatorSignal.negative;
     StatusIndicator.mk "hiring_signal" (Some "detected") IndicatorSignal.positive;
     StatusIndicator.mk "acquisition" (Some "detected") IndicatorSignal.negative] in
  fst (status_and_confidence indicators) = CompanyStatusType.likely_closed
  /\ (snd (status_and_confidence indicators) == 0.8)%Q.
Proof.
  intros indicators.
  destruct (status_by_counts indicators) as (_ & [_ Hclosed] & _ & _ & Hconf & _).
  split.
  - apply Hclosed. vm_compute. lia.
  - rewrite (Hconf ltac:(discriminate)). vm_compute. reflexivity.
Defined.

(** *** Acquisition language *)

Lemma prefix_take (w t : string) (n : nat) :
  prefix w (substring 0 n t) = true -> prefix w t = true.
Proof.
  revert t n. induction w as [|a w IH]; intros t n H; [now destruct t|].
  destruct n as [|n], t as [|c t]; cbn in H; try discriminate.
  cbn. destruct (ascii_dec a c); [|discriminate]. now apply (IH t n).
Qed.

Lemma drop_take (k n : nat) (t : string) :
  Py.drop k (substring 0 n t) = substring 0 (n - k) (Py.drop k t).
Proof.
  revert n t. induction k as [|k IH]; intros n t.
  - now rewrite Nat.sub_0_r.
  - destruct t as [|c t].
    + destruct n as [|n]; cbn; [reflexivity|]. now destruct (n - k).
    + destruct n as [|n]; cbn; [|apply IH].
      now destruct (Py.drop k t).
Qed.

Lemma drop_past (k : nat) (s : string) : length s <= k -> Py.drop k s = "".
Proof.
  revert s. induction k as [|k IH]; intros [|c s] H; cbn in *; try reflexivity;
    try lia. apply IH. lia.
Qed.

Lemma contains_intro (w s : string) (k : nat) :
  prefix w (Py.drop k s) = true -> Py.contains w s = true.
Proof.
  intros H.
  assert (exists k', k' <= length s /\ prefix w (Py.drop k' s) = true)
    as (k' & Hk & Hp).
  { destruct (Nat.le_gt_cases k (length s)); [eauto|].
    exists (length s). split; [lia|].
    rewrite drop_past in H by lia. now rewrite drop_past by lia. }
  destruct (find_at_complete w s 0 k' Hp Hk) as [q Hq].
  unfold Py.contains, Py.find. cbn [Nat.leb Py.drop]. now rewrite Hq.
Qed.

(** What a slice contains, the whole string contains. *)
Lemma contains_slice (w s : string) (a b : nat) :
  Py.contains w (Py.slice s a b) = true -> Py.contains w s = true.
Proof.
  unfold Py.contains at 1.
  destruct (Py.find (Py.slice s a b) w 0) as [q|] eqn:E; [intros _|discriminate].
  apply find_prefix in E. unfold Py.slice in E.
  rewrite substring_drop, drop_take in E. apply prefix_take in E.
  rewrite drop_drop in E. exact (contains_intro _ _ _ E).
Qed.

(** X25: [detect_acquisition] never answers yes unless one of the six
    acquisition phrases occurs; and when none of the suppressing words
    (we, our, talent, customer, data, each with its space) occurs anywhere
    in the content, it answers yes exactly when a phrase occurs. *)
Theorem acquisition_needs_phrase (content : string) :
  (detect_acquisition content = true ->
   exists pattern, In pattern _ACQUISITION_PATTERNS /\ matches content pattern)
  /\ ((forall word, In word suppressing_words ->
         Py.contains word (Py.lower content) = false) ->
      (exists pattern, In pattern _ACQUISITION_PATTERNS /\ matches content pattern) ->
      detect_acquisition content = true).
Proof.
  unfold detect_acquisition, matches.
  generalize (Py.lower content) as cl. intros cl.
  induction _ACQUISITION_PATTERNS as [|pattern rest [IH1 IH2]];
    cbn [acquisition_loop].
  - split; [discriminate|]. intros _ (pattern & [] & _).
  - split.
    + destruct (Re.search true pattern content) as [m|] eqn:E.
      * intros _. exists pattern. split; [now left | congruence].
      * intros H. destruct (IH1 H) as (q & Hq & Hm). exists q. split; [now right | exact Hm].
    + intros Hclean Hex.
      destruct (Re.search true pattern content) as [m|] eqn:E.
      * assert (existsb (fun word =>
                  Py.contains word (Py.slice cl (fst m - 30) (fst m)))
                  suppressing_words = false) as ->; [|reflexivity].
        apply not_true_is_false. intros (word & Hw & Hc)%existsb_exists.
        apply contains_slice in Hc. rewrite (Hclean word Hw) in Hc. discriminate.
      * apply IH2; [exact Hclean|].
        destruct Hex as (q & [<-|Hq] & Hm); [congruence | eauto].
Qed.

Lemma acquisition_needs_phrase_witness :
  detect_acquisition "Acme was acquired  by BigTech Corp" = true.
Proof.
  apply (acquisition_needs_phrase "Acme was acquired  by BigTech Corp").
  - intros word Hw. cbn in Hw.
    repeat (destruct Hw as [<-|Hw]; [vm_compute; reflexivity|]). destruct Hw.
  - eexists. split; [left; reflexivity|]. vm_compute. discriminate.
Defined.

End ChangeDetectionExtra.

(** ** Matches of regular expressions *)

Module RegexExtra.
Import Re SignificanceProps SignificanceExtra Leadership.

Lemma lit_span {A} (ic : bool) (w : string) (prev : option ascii) (s : string)
    (n : nat) (k : cont) (x : A) :
  lit ic w prev s n k = Some x ->
  exists prev', length w <= length s
                /\ k prev' (Py.drop (length w) s) (n + length w) = Some x.
Proof.
  revert prev s n. induction w as [|a w IH]; intros prev s n H; cbn [lit] in H.
  - exists prev. cbn. rewrite Nat.add_0_r. split; [lia | exact H].
  - destruct s as [|c s]; [discriminate|].
    destruct (char_eq ic a c); [|discriminate].
    apply IH in H as (prev' & Hl & H). exists prev'. cbn.
    replace (n + S (length w)) with (S n + length w) by lia. split; [lia | exact H].
Qed.

Lemma plus_span {A} (ic : bool) (cs : cset) (prev : option ascii) (s : string)
    (n : nat) (k : cont) (x : A) :
  plus ic cs prev s n k = Some x ->
  exists prev' m, 1 <= m /\ m <= length s
                  /\ k prev' (Py.drop m s) (n + m) = Some x.
Proof.
  revert prev n. induction s as [|c s IH]; intros prev n H; cbn [plus] in H;
    [discriminate|].
  destruct (in_cset ic cs c); [|discriminate].
  destruct (plus ic cs (Some c) s (S n) k) as [y|] eqn:E.
  - injection H as ->. apply IH in E as (prev' & m & H1 & H2 & E).
    exists prev', (S m). cbn. replace (n + S m) with (S n + m) by lia.
    repeat split; try lia. exact E.
  - exists (Some c), 1. cbn. replace (n + 1) with (S n) by lia.
    repeat split; try lia. exact H.
Qed.

(** The bookkeeping of the matcher: the continuation is entered after at
    least [min_len r] characters, at a position of the text, with the
    count of the characters taken. *)
Lemma run_span {A} (ic : bool) (r : re) :
  forall (prev : option ascii) (s : string) (n : nat) (k : cont) (x : A),
    run ic r prev s n k = Some x ->
    exists prev' m, min_len r <= m /\ m <= length s
                    /\ k prev' (Py.drop m s) (n + m) = Some x.
Proof.
  induction r as [w|cs|cs| |r1 IH1 r2 IH2|r1 IH1 r2 IH2|r1 IH1];
    intros prev s n k x H; cbn [run min_len] in *.
  - apply lit_span in H as (prev' & Hl & H). eauto.
  - destruct s as [|c s]; [discriminate|].
    destruct (in_cset ic cs c); [|discriminate].
    exists (Some c), 1. cbn. replace (n + 1) with (S n) by lia.
    repeat split; try lia. exact H.
  - apply plus_span in H as (prev' & m & H1 & H2 & H). eauto.
  - destruct (at_boundary prev s); [|discriminate].
    exists prev, 0. cbn. rewrite Nat.add_0_r. repeat split; try lia. exact H.
  - apply IH1 in H as (p1 & m1 & Ha & Hb & H).
    apply IH2 in H as (p2 & m2 & Hc & Hd & H).
    rewrite drop_length in Hd. rewrite drop_drop in H.
    exists p2, (m1 + m2). replace (n + (m1 + m2)) with (n + m1 + m2) by lia.
    repeat split; try lia. exact H.
  - destruct (run ic r1 prev s n k) as [y|] eqn:E.
    + injection H as ->. apply IH1 in E as (p & m & Ha & Hb & E).
      exists p, m. repeat split; try lia. exact E.
    + apply IH2 in H as (p & m & Ha & Hb & H).
      exists p, m. repeat split; try lia. exact H.
  - destruct (run ic r1 prev s n k) as [y|] eqn:E.
    + injection H as ->. apply IH1 in E as (p & m & Ha & Hb & E).
      exists p, m. repeat split; try lia. exact E.
    + exists prev, 0. cbn. rewrite Nat.add_0_r. repeat split; try lia. exact H.
Qed.

Lemma search_from_span (ic : bool) (r : re) (prev : option ascii) (s : string)
    (pos p len : nat) :
  search_from ic r prev s pos = Some (p, len) ->
  pos <= p /\ (p - pos) + len <= length s /\ min_len r <= len.
Proof.
  revert prev pos. induction s as [|c s IH]; intros prev pos H;
    cbn [search_from] in H.
  - destruct (match_here ic r prev "") as [l|] eqn:E; [|discriminate].
    injection H as <- <-. unfold match_here in E.
    apply run_span in E as (prev' & m & Ha & Hb & E). injection E as <-. lia.
  - destruct (match_here ic r prev (String c s)) as [l|] eqn:E.
    + injection H as <- <-. unfold match_here in E.
      apply run_span in E as (prev' & m & Ha & Hb & E). injection E as <-. lia.
    + apply IH in H. cbn [length]. lia.
Qed.

Lemma substring_length (p n : nat) (s : string) :
  p + n <= length s -> length (substring p n s) = n.
Proof.
  revert n s. induction p as [|p IH]; intros n s H.
  - revert s H. induction n as [|n IHn]; intros [|c s] H; cbn in *; try lia.
    f_equal. apply IHn. lia.
  - destruct s as [|c s]; cbn in *; [lia|]. apply IH. lia.
Qed.

(** A match of [search] lies inside the text and is at least as long as
    the pattern requires; [group(0)] has the length of the match. *)
Lemma search_within_text (ic : bool) (r : re) (s : string) (p len : nat) :
  search ic r s = Some (p, len) ->
  p + len <= length s /\ min_len r <= len
  /\ length (group0 s (p, len)) = len.
Proof.
  unfold search. intros H%search_from_span.
  assert (p + len <= length s) by lia.
  repeat split; try lia.
  unfold group0, Py.slice. cbn [fst snd].
  replace (p + len - p) with len by lia. now apply substring_length.
Qed.

Lemma first_match_some (patterns : list re) (title e : string) :
  first_match patterns title = Some e ->
  exists pattern m, In pattern patterns /\ search true pattern title = Some m
                    /\ e = group0 title m.
Proof.
  induction patterns as [|pattern rest IH]; cbn [first_match]; [discriminate|].
  destruct (search true pattern title) as [m|] eqn:E.
  - intros [= <-]. exists pattern, m. repeat split; auto. now left.
  - intros H. apply IH in H as (q & m & Hq & Hm & He). exists q, m.
    repeat split; auto. now right.
Qed.

(** X26: the title extracted from a string is a piece of that string, at
    least three characters long; so the test [if extracted] of
    [normalize_title] never fails on an extracted title, and a string
    shorter than three characters is no leadership title. *)
Theorem extracted_title_is_substring (title e : string) :
  extract_leadership_title title = Some e ->
  3 <= length e
  /\ (exists pos, pos + length e <= length title
                  /\ Py.slice title pos (pos + length e) = e)
  /\ Py.truthy e = true
  /\ 3 <= length title
  /\ is_leadership_title title = true.
Proof.
  unfold extract_leadership_title. intros H.
  assert (is_leadership_title title = true) as Hlead.
  { unfold is_leadership_title. apply first_match_some in H as (q & m & Hq & Hm & _).
    apply existsb_exists. exists q. split; [exact Hq|]. now rewrite Hm. }
  apply first_match_some in H as (q & [p len] & Hq & Hm & ->).
  assert (3 <= min_len q) as Hmin.
  { assert (forallb (fun r => 3 <=? min_len r) _LEADERSHIP_PATTERNS = true) as Hall
      by reflexivity.
    rewrite forallb_forall in Hall. apply Nat.leb_le. exact (Hall q Hq). }
  apply search_within_text in Hm as (Hin & Hlen & Hg).
  rewrite Hg. split; [lia|]. split; [|split; [|split; [lia | exact Hlead]]].
  - exists p. split; [exact Hin | reflexivity].
  - destruct (group0 title (p, len)); [cbn in Hg; lia | reflexivity].
Qed.

Lemma extracted_title_is_substring_witness :
  extract_leadership_title "CEO at Acme Corp" = Some "CEO" /\ 3 <= length "CEO".
Proof.
  split; [reflexivity|].
  apply (extracted_title_is_substring "CEO at Acme Corp" "CEO"). reflexivity.
Defined.

End RegexExtra.
